(** * Clinic knowledge-base bot: content tree, cache, navigation, search

    A shallow embedding of [bot.py].  Python classes become modules
    ([MenuItem], [DataCache], [GoogleSheetsManager], [MessageFormatter],
    [NavigationManager]); the methods of [ClinicBot] live at top level under
    their Python names.

    - A Python [str] is a sequence of Unicode code points: [str := list N].
    - The per-session dictionary [context.user_data] is a [gmap] keyed by
      Python dictionary keys.
    - [time.time()] readings are exact rationals ([Qc]).
    - Stateful methods thread a [World] through a small state-and-exception
      monad; the clock and the spreadsheet are oracles in an [Env]. *)

From Stdlib Require Import NArith ZArith QArith Qcanon List Ascii String Lia.
From stdpp Require Import base numbers option list strings gmap.

Local Open Scope N_scope.

(** ** Python strings *)

Abbreviation char := N.
Abbreviation str := (list N).

(** Literals are written as UTF-8 text and decoded to code points. *)
Fixpoint utf8_decode (bs : list N) : str :=
  match bs with
  | [] => []
  | b0 :: r0 =>
    if b0 <? 128 then b0 :: utf8_decode r0
    else match r0 with
    | [] => []
    | b1 :: r1 =>
      if b0 <? 224 then ((b0 - 192) * 64 + (b1 - 128)) :: utf8_decode r1
      else match r1 with
      | [] => []
      | b2 :: r2 =>
        if b0 <? 240
        then ((b0 - 224) * 4096 + (b1 - 128) * 64 + (b2 - 128)) :: utf8_decode r2
        else match r2 with
        | [] => []
        | b3 :: r3 =>
          ((b0 - 240) * 262144 + (b1 - 128) * 4096 + (b2 - 128) * 64 + (b3 - 128))
            :: utf8_decode r3
        end
      end
    end
  end.

Definition py (s : string) : str :=
  utf8_decode (map N_of_ascii (list_ascii_of_string s)).

Definition NL : str := [10].
Definition empty_str : str := [].

(** [s.startswith(p)] *)
Fixpoint startswith (s p : str) {struct p} : bool :=
  match p, s with
  | [], _ => true
  | _ :: _, [] => false
  | c :: p', d :: s' => (c =? d) && startswith s' p'
  end.

(** [sub in s] for strings: [sub] occurs in [s] as a contiguous run. *)
Fixpoint contains (s sub : str) : bool :=
  startswith s sub ||
  match s with
  | [] => false
  | _ :: s' => contains s' sub
  end.

(** Python truthiness of a string: [bool(s)]. *)
Definition truthy (s : str) : bool :=
  match s with [] => false | _ :: _ => true end.

(** The character tables of the Python runtime that the program relies on
    but does not define: [str.isspace] (used by [str.strip]), the decimal
    digit class of [re] (the complement of [\D]) and [str.lower]. *)
Class Unicode := {
  isspace : char → bool;
  isdigit : char → bool;
  lower : str → str;
}.

(** A runtime restricted to Basic Latin and the basic Cyrillic block, where
    every CPython version agrees; used to evaluate concrete scenarios. *)
Definition latin_cyrillic_lower_char (c : char) : char :=
  if (65 <=? c) && (c <=? 90) then c + 32
  else if (1040 <=? c) && (c <=? 1071) then c + 32
  else if (1024 <=? c) && (c <=? 1039) then c + 80
  else c.

Definition latin_cyrillic : Unicode := {|
  isspace c := ((9 <=? c) && (c <=? 13)) || ((28 <=? c) && (c <=? 32));
  isdigit c := (48 <=? c) && (c <=? 57);
  lower s := map latin_cyrillic_lower_char s;
|}.

Section Strip.
Context `{!Unicode}.

Fixpoint lstrip (s : str) : str :=
  match s with
  | [] => []
  | c :: s' => if isspace c then lstrip s' else s
  end.

Definition rstrip (s : str) : str := rev (lstrip (rev s)).

(** [s.strip()] *)
Definition strip (s : str) : str := rstrip (lstrip s).
End Strip.

(** ** Content model *)

Inductive ContentType := TEXT | PHONE | MENU | SUBMENU | LINK | EMAIL.

#[global] Instance ContentType_eq_dec : EqDecision ContentType.
Proof. solve_decision. Defined.

(** The value of each member of the [ContentType] enumeration. *)
Definition ContentType_value (t : ContentType) : str :=
  match t with
  | TEXT => py "text"
  | PHONE => py "phone"
  | MENU => py "menu"
  | SUBMENU => py "submenu"
  | LINK => py "link"
  | EMAIL => py "email"
  end.

Definition ContentType_members : list ContentType :=
  [TEXT; PHONE; MENU; SUBMENU; LINK; EMAIL].

(** [ContentType(s)]: look a member up by value; [None] stands for the
    [ValueError] raised when no member has that value. *)
Definition ContentType_of_value (s : str) : option ContentType :=
  List.find (λ t, bool_decide (ContentType_value t = s)) ContentType_members.

Module SheetColumns.
Definition CALLBACK_DATA : nat := 0.
Definition PARENT : nat := 1.
Definition TEXT : nat := 2.
Definition DATA : nat := 3.
Definition TYPE : nat := 4.
Definition EXTRA : nat := 5.
End SheetColumns.

Module MenuItem.
Record t := mk {
  callback_data : str;
  parent : str;
  text : str;
  data : str;
  content_type : ContentType;
  extra : str;
}.

#[global] Instance eq_dec : EqDecision t.
Proof. solve_decision. Defined.

Section FromRow.
Context `{!Unicode}.

(** [row[i]]; every use below is guarded by a length test. *)
Definition cell (row : list str) (i : nat) : str := default [] (row !! i).

Definition from_row (row : list str) : option t :=
  if bool_decide (length row < 3)%nat then None
  else
    let callback_data := strip (cell row 0) in
    let parent := strip (cell row 1) in
    let text := strip (cell row 2) in
    if negb (truthy callback_data) || negb (truthy text) then None
    else
      (* [len(row) > 3] is written [3 < length row], and so on *)
      let data :=
        if bool_decide (3 < length row)%nat then strip (cell row 3) else empty_str in
      let content_type_str :=
        if bool_decide (4 < length row)%nat then strip (cell row 4)
        else py "text" in
      let extra :=
        if bool_decide (5 < length row)%nat then strip (cell row 5) else empty_str in
      let content_type :=
        match ContentType_of_value content_type_str with
        | Some ct => ct
        | None => TEXT
        end in
      Some (mk callback_data parent text data content_type extra).
End FromRow.
End MenuItem.

Module GoogleSheetsManager.
Section Fetch.
Context `{!Unicode}.

(** [not row or not any(cell.strip() for cell in row)] *)
Definition blank_row (row : list str) : bool :=
  match row with
  | [] => true
  | _ :: _ => negb (existsb (λ cell, truthy (strip cell)) row)
  end.

(** One iteration of the loop over [raw_data[1:]]. *)
Definition fetch_step (menu_items : list MenuItem.t) (row : list str)
  : list MenuItem.t :=
  if blank_row row then menu_items
  else match MenuItem.from_row row with
       | Some item => menu_items ++ [item]
       | None => menu_items
       end.

(** The body of [fetch_data] once [sheet.get_all_values()] has answered
    with [raw_data]. *)
Definition build_menu_items (raw_data : list (list str)) : list MenuItem.t :=
  foldl fetch_step [] (drop 1 raw_data).
End Fetch.
End GoogleSheetsManager.

(** ** Configuration *)

Module Config.
Definition CACHE_DURATION : Z := 3600.
Definition MAX_SEARCH_RESULTS : nat := 5.
Definition MAX_MESSAGE_LENGTH : nat := 4000.
End Config.

(** ** The TTL cache *)

Module DataCache.
Record t := mk {
  cache_duration : Z;
  last_update : option Qc;
  data : list MenuItem.t;
}.

(** [__init__] *)
Definition init (cache_duration : Z) : t := mk cache_duration None [].

(** [is_valid], given the reading [now] that [time.time()] returns when the
    right operand of [and] is evaluated. *)
Definition is_valid (c : t) (now : Qc) : bool :=
  match last_update c with
  | None => false
  | Some fetched_at => bool_decide (now - fetched_at < Qc_of_Z (cache_duration c))%Qc
  end.

(** [update], given the reading [now] of [time.time()]. *)
Definition update (c : t) (new_data : list MenuItem.t) (now : Qc) : t :=
  mk (cache_duration c) (Some now) new_data.

Definition clear (c : t) : t := mk (cache_duration c) None [].
End DataCache.

(** ** Outbound messages *)

Record InlineKeyboardButton := Button {
  button_text : str;
  button_callback_data : str;
}.

#[global] Instance InlineKeyboardButton_eq_dec : EqDecision InlineKeyboardButton.
Proof. solve_decision. Defined.

(** [InlineKeyboardMarkup]: rows of buttons. *)
Definition InlineKeyboardMarkup := list (list InlineKeyboardButton).

Record Message := {
  message_text : option str;
  message_reply_markup : option InlineKeyboardMarkup;
}.

(** The arguments of one call of [_safe_edit_message]. *)
Record EditRequest := Edit {
  edit_message : Message;
  edit_text : str;
  edit_reply_markup : option InlineKeyboardMarkup;
  edit_parse_mode : option str;
}.

(** ** Navigation stack *)

Module NavigationManager.
Definition NAV_STACK : string := "nav_stack".

(** [context.user_data.get('nav_stack', [])]: the stored list when the key
    is present (the caller then holds an alias of it), a fresh empty list
    otherwise. *)
Definition get_nav_stack (user_data : gmap string (list str)) : list str :=
  default [] (user_data !! NAV_STACK).

Definition push_to_nav_stack (user_data : gmap string (list str)) (item_id : str)
  : gmap string (list str) :=
  let user_data1 :=
    match user_data !! NAV_STACK with
    | None => <[NAV_STACK := []]> user_data
    | Some _ => user_data
    end in
  <[NAV_STACK := get_nav_stack user_data1 ++ [item_id]]> user_data1.

(** [nav_stack.pop() if nav_stack else None]; [pop] mutates the stored
    list, which exists whenever the list read is non-empty. *)
Definition pop_from_nav_stack (user_data : gmap string (list str))
  : option str * gmap string (list str) :=
  let nav_stack := get_nav_stack user_data in
  match last nav_stack with
  | Some top => (Some top, <[NAV_STACK := removelast nav_stack]> user_data)
  | None => (None, user_data)
  end.

Definition clear_nav_stack (user_data : gmap string (list str))
  : gmap string (list str) :=
  <[NAV_STACK := []]> user_data.
End NavigationManager.

(** ** World, oracles and the handler monad *)

(** What the outside world answers: the successive readings of
    [time.time()], and what the spreadsheet returns at each fetch ([None]: the
    client raised). *)
Record Env := {
  clock : nat → Qc;
  sheet : nat → option (list (list str));
}.

Record World := {
  cache : DataCache.t;
  user_data : gmap string (list str);
  clock_reads : nat;
  fetches : nat;
  outbox : list EditRequest;
}.

Definition set_cache (c : DataCache.t) (w : World) : World :=
  {| cache := c; user_data := user_data w; clock_reads := clock_reads w;
     fetches := fetches w; outbox := outbox w |}.
Definition set_user_data (u : gmap string (list str)) (w : World) : World :=
  {| cache := cache w; user_data := u; clock_reads := clock_reads w;
     fetches := fetches w; outbox := outbox w |}.

Inductive Res (A : Type) :=
  | Ok (a : A)
  | Raised.
Arguments Ok {A} a.
Arguments Raised {A}.

Definition M (A : Type) : Type := World → Res A * World.

Definition ret {A} (a : A) : M A := λ w, (Ok a, w).
Definition bind {A B} (m : M A) (k : A → M B) : M B :=
  λ w, match m w with
       | (Ok a, w') => k a w'
       | (Raised, w') => (Raised, w')
       end.
Notation "'let*' x ':=' m 'in' k" := (bind m (λ x, k))
  (at level 10, x name, m at level 100, k at level 200, only parsing).

(** [time.time()] *)
Definition time_time (E : Env) : M Qc := λ w,
  (Ok (clock E (clock_reads w)),
   {| cache := cache w; user_data := user_data w;
      clock_reads := S (clock_reads w); fetches := fetches w; outbox := outbox w |}).

(** A call of [_safe_edit_message]: it swallows every exception and each
    caller below discards its result, so a handler only hands the request
    over; what the transport does with it is the subject of [Transport]. *)
Definition call_safe_edit_message (message : Message) (text : str)
    (reply_markup : option InlineKeyboardMarkup) (parse_mode : option str) : M unit :=
  λ w, (Ok tt,
        {| cache := cache w; user_data := user_data w; clock_reads := clock_reads w;
           fetches := fetches w;
           outbox := outbox w ++ [Edit message text reply_markup parse_mode] |}).

(** ** Message formatting *)

Module MessageFormatter.
Section Format.
Context `{!Unicode}.

(** [re.sub(r'\D', '', phone)] *)
Definition sub_non_digits (phone : str) : str := List.filter isdigit phone.

Definition format_phone (text phone extra : str) : str :=
  let formatted_phone := sub_non_digits phone in
  let formatted_phone :=
    if startswith formatted_phone (py "8")
    then py "7" ++ drop 1 formatted_phone
    else formatted_phone in
  let message :=
    text ++ NL ++ NL ++ py "📞 <a href='tel:+" ++ formatted_phone
         ++ py "'>" ++ phone ++ py "</a>" in
  if truthy extra then message ++ NL ++ NL ++ py "💡 " ++ extra else message.

Definition format_text (text data extra : str) : str :=
  let message := text in
  let message := if truthy data then message ++ NL ++ NL ++ data else message in
  if truthy extra then message ++ NL ++ NL ++ py "💡 " ++ extra else message.

Definition format_link (text url extra : str) : str :=
  let message :=
    text ++ NL ++ NL ++ py "🔗 <a href='" ++ url
         ++ py "'>Перейти по ссылке</a>" in
  if truthy extra then message ++ NL ++ NL ++ py "💡 " ++ extra else message.
End Format.
End MessageFormatter.

(** ** The bot *)

Definition BACK_BUTTON : InlineKeyboardButton := Button (py "⬅️ Назад") (py "back").
Definition MAIN_MENU_BUTTON : InlineKeyboardButton :=
  Button (py "🏠 Главное меню") (py "main_menu").
Definition REFRESH_BUTTON : InlineKeyboardButton :=
  Button (py "🔄 Обновить") (py "refresh").
Definition REFRESH_DATA_BUTTON : InlineKeyboardButton :=
  Button (py "🔄 Обновить данные") (py "refresh").
Definition HTML : option str := Some (py "HTML").

Section ClinicBot.
Context `{!Unicode}.
Variable E : Env.

(** [sheets_manager.fetch_data()]: one request to the spreadsheet; its
    exceptions are logged and raised again. *)
Definition fetch_data : M (list MenuItem.t) := λ w,
  let w' := {| cache := cache w; user_data := user_data w;
               clock_reads := clock_reads w; fetches := S (fetches w);
               outbox := outbox w |} in
  match sheet E (fetches w) with
  | Some raw_data => (Ok (GoogleSheetsManager.build_menu_items raw_data), w')
  | None => (Raised, w')
  end.

(** [self.cache.is_valid()]: the clock is read only when a fetch time is
    recorded ([and] short-circuits). *)
Definition cache_is_valid : M bool := λ w,
  match DataCache.last_update (cache w) with
  | None => (Ok false, w)
  | Some _ => (let* now := time_time E in ret (DataCache.is_valid (cache w) now)) w
  end.

Definition cache_update (new_data : list MenuItem.t) : M unit :=
  let* now := time_time E in
  λ w, (Ok tt, set_cache (DataCache.update (cache w) new_data now) w).

Definition get_menu_data (force_refresh : bool) : M (list MenuItem.t) :=
  let* stale := (if force_refresh then ret true
                 else (let* valid := cache_is_valid in ret (negb valid))) in
  let* _ := (if stale : bool
             then (let* new_data := fetch_data in cache_update new_data)
             else ret tt) in
  λ w, (Ok (DataCache.data (cache w)), w).

(** [next((item for item in items if item.callback_data == callback_data), None)] *)
Definition _find_menu_item (items : list MenuItem.t) (callback_data : str)
  : option MenuItem.t :=
  List.find (λ item, bool_decide (MenuItem.callback_data item = callback_data)) items.

Definition _search_items (items : list MenuItem.t) (search_text : str)
  : list MenuItem.t :=
  let search_lower := lower search_text in
  foldl (λ results item,
           if contains (lower (MenuItem.text item)) search_lower
           then results ++ [item]
           else if contains (lower (MenuItem.data item)) search_lower
           then results ++ [item]
           else if contains (lower (MenuItem.extra item)) search_lower
           then results ++ [item]
           else results)
        [] items.

Definition _show_error (message : Message) (error_text : str) : M unit :=
  let keyboard := [[MAIN_MENU_BUTTON]; [REFRESH_BUTTON]] in
  call_safe_edit_message message (py "⚠️ " ++ error_text) (Some keyboard) None.

Definition _show_text_content (message : Message) (item : MenuItem.t) : M unit :=
  let formatted_text :=
    MessageFormatter.format_text
      (MenuItem.text item) (MenuItem.data item) (MenuItem.extra item) in
  let keyboard := [[BACK_BUTTON]; [MAIN_MENU_BUTTON]] in
  call_safe_edit_message message formatted_text (Some keyboard) None.

Definition _show_phone_content (message : Message) (item : MenuItem.t) : M unit :=
  let formatted_text :=
    MessageFormatter.format_phone
      (MenuItem.text item) (MenuItem.data item) (MenuItem.extra item) in
  let keyboard := [[BACK_BUTTON]; [MAIN_MENU_BUTTON]] in
  call_safe_edit_message message formatted_text (Some keyboard) HTML.

Definition _show_link_content (message : Message) (item : MenuItem.t) : M unit :=
  let formatted_text :=
    MessageFormatter.format_link
      (MenuItem.text item) (MenuItem.data item) (MenuItem.extra item) in
  let keyboard := [[BACK_BUTTON]; [MAIN_MENU_BUTTON]] in
  call_safe_edit_message message formatted_text (Some keyboard) HTML.

(** The loop [for child in children: keyboard.append([InlineKeyboardButton(
    child.text, callback_data=child.callback_data)])]. *)
Definition child_rows (children : list MenuItem.t) : InlineKeyboardMarkup :=
  foldl (λ keyboard child,
           keyboard ++ [[Button (MenuItem.text child) (MenuItem.callback_data child)]])
        [] children.

Definition _show_menu (message : Message) (parent_item : MenuItem.t)
    (menu_data : list MenuItem.t) (is_main : bool) : M unit :=
  let children :=
    filter (λ item, MenuItem.parent item = MenuItem.callback_data parent_item)
           menu_data in
  match children with
  | [] => _show_text_content message parent_item
  | _ :: _ =>
    let keyboard := child_rows children in
    let nav_buttons := [] in
    let nav_buttons := if negb is_main then nav_buttons ++ [BACK_BUTTON] else nav_buttons in
    let nav_buttons := nav_buttons ++ [MAIN_MENU_BUTTON] in
    let nav_buttons := nav_buttons ++ [REFRESH_BUTTON] in
    let keyboard :=
      match nav_buttons with [] => keyboard | _ :: _ => keyboard ++ [nav_buttons] end in
    let text := MenuItem.text parent_item in
    let text :=
      if truthy (MenuItem.data parent_item)
      then text ++ NL ++ NL ++ MenuItem.data parent_item else text in
    call_safe_edit_message message text (Some keyboard) None
  end.

Definition _show_item_content (message : Message) (item : MenuItem.t)
    (menu_data : list MenuItem.t) : M unit :=
  match MenuItem.content_type item with
  | MENU => _show_menu message item menu_data true
  | SUBMENU => _show_menu message item menu_data false
  | PHONE => _show_phone_content message item
  | LINK => _show_link_content message item
  | _ => _show_text_content message item
  end.

Definition _show_main_menu (message : Message) : M unit :=
  let* menu_data := get_menu_data false in
  let main_items := filter (λ item, truthy (MenuItem.parent item) = false) menu_data in
  match main_items with
  | [] => _show_error message (py "Главное меню не настроено")
  | _ :: _ =>
    let keyboard := child_rows main_items in
    let keyboard := keyboard ++ [[REFRESH_DATA_BUTTON]] in
    call_safe_edit_message message
      (py "📋 <b>Главное меню</b>" ++ NL ++ NL ++ py "Выберите нужный раздел:")
      (Some keyboard) HTML
  end.

(** [nav_stack] is read once at the top; once the stack holds two entries
    or more the key is present in [user_data], so the name aliases the
    stored list and [nav_stack[-1]] after the pop reads the popped list. *)
Definition _handle_back_button (message : Message) : M unit := λ w,
  let nav_stack := NavigationManager.get_nav_stack (user_data w) in
  if bool_decide (length nav_stack < 2)%nat then _show_main_menu message w
  else
    let '(_, user_data') := NavigationManager.pop_from_nav_stack (user_data w) in
    let w := set_user_data user_data' w in
    let nav_stack := NavigationManager.get_nav_stack user_data' in
    let previous_id := last nav_stack in
    match previous_id with
    | Some previous_id =>
      if truthy previous_id then
        (let* menu_data := get_menu_data false in
         match _find_menu_item menu_data previous_id with
         | Some previous_item => _show_item_content message previous_item menu_data
         | None => _show_main_menu message
         end) w
      else _show_main_menu message w
    | None => _show_main_menu message w
    end.
(** The part of [handle_callback_query] that serves an item id (any
    callback data other than the three reserved actions), without the
    surrounding exception handler. *)
Definition select_item (message : Message) (query_data : list N) : M unit :=
  let* menu_data := get_menu_data false in
  match _find_menu_item menu_data query_data with
  | None => _show_error message (py "Элемент не найден")
  | Some item =>
    λ w, _show_item_content message item menu_data
           (set_user_data
              (NavigationManager.push_to_nav_stack
                 (user_data w) (MenuItem.callback_data item)) w)
  end.
End ClinicBot.

(** ** The transport boundary: [_safe_send_message] and [_safe_edit_message] *)

Module Transport.
(** How the chat platform answers one API call, by the [except] clause
    that the answer selects. *)
Inductive Response :=
  | Delivered (sent : Message)
  | RetryAfter (retry_after : nat)
  | BadRequest (description : str)
  | TelegramError
  | OtherException.

Record SendRequest := Send {
  send_chat_id : Z;
  send_text : str;
  send_reply_markup : option InlineKeyboardMarkup;
  send_parse_mode : option str;
  send_disable_web_page_preview : bool;
}.

Inductive Event :=
  | ApiSend (req : SendRequest)
  | ApiEdit (req : EditRequest)
  | LogWarning
  | LogError
  | Sleep (seconds : nat).

(** [calls] counts the API calls made so far: the transport's answer to
    the next call is [T calls]. *)
Record State := {
  calls : nat;
  trace : list Event;
}.

Definition record (evs : list Event) (st : State) : State :=
  {| calls := calls st; trace := trace st ++ evs |}.
Definition api_call (ev : Event) (st : State) : State :=
  {| calls := S (calls st); trace := trace st ++ [ev] |}.

Section Safe.
Context `{!Unicode}.
Variable T : nat → Response.

(** The recursive self-call consumes one unit of [fuel]; [None] means
    that [fuel] nested calls did not reach a [return]. *)
Fixpoint _safe_send_message (fuel : nat) (req : SendRequest) (st : State)
  : option (option Message * State) :=
  match fuel with
  | O => None
  | S fuel' =>
    let st1 := api_call (ApiSend req) st in
    match T (calls st) with
    | Delivered sent => Some (Some sent, st1)
    | RetryAfter retry_after =>
      _safe_send_message fuel' req (record [LogWarning; Sleep retry_after] st1)
    | BadRequest _ | TelegramError => Some (None, record [LogError] st1)
    | OtherException => Some (None, record [LogError] st1)
    end
  end.

Fixpoint _safe_edit_message (fuel : nat) (req : EditRequest) (st : State)
  : option (bool * State) :=
  match fuel with
  | O => None
  | S fuel' =>
    if bool_decide (message_text (edit_message req) = Some (edit_text req)
                    ∧ message_reply_markup (edit_message req) = edit_reply_markup req)
    then Some (true, st)
    else
      let st1 := api_call (ApiEdit req) st in
      match T (calls st) with
      | Delivered _ => Some (true, st1)
      | BadRequest e =>
        if contains (lower e) (py "message is not modified")
        then Some (true, st1)
        else Some (false, record [LogWarning] st1)
      | RetryAfter retry_after =>
        _safe_edit_message fuel' req (record [LogWarning; Sleep retry_after] st1)
      | TelegramError => Some (false, record [LogError] st1)
      | OtherException => Some (false, record [LogError] st1)
      end
  end.
End Safe.


(** The test at the top of [_safe_edit_message] that makes an edit a
    no-op. *)
Definition unchanged (req : EditRequest) : Prop :=
  message_text (edit_message req) = Some (edit_text req)
  ∧ message_reply_markup (edit_message req) = edit_reply_markup req.

Definition sleeps (evs : list Event) : list nat :=
  omap (λ ev, match ev with Sleep n => Some n | _ => None end) evs.



End Transport.

(** ** Vocabulary of the specification *)

(** [sub] occurs in [s] as a contiguous run of characters. *)
Definition substring (sub s : str) : Prop := ∃ pre post, s = pre ++ sub ++ post.

(** The strings that the specification lists as recognized content types. *)
Definition recognized_content_types : list str :=
  [py "text"; py "phone"; py "menu"; py "submenu"; py "link"; py "email"].

Section SpecVocabulary.
Context `{!Unicode}.

(** "The lower-cased query is a substring of the lower-cased displayText,
    payload, or note." *)
Definition search_match (query : str) (item : MenuItem.t) : Prop :=
  substring (lower query) (lower (MenuItem.text item))
  ∨ substring (lower query) (lower (MenuItem.data item))
  ∨ substring (lower query) (lower (MenuItem.extra item)).

(** "Non-digit characters stripped." *)
Definition strip_non_digits (payload : str) : str :=
  filter (λ c, isdigit c = true) payload.

(** "A row has at least 3 fields and its id and displayText are non-empty
    after trimming." *)
Definition well_formed_row (row : list str) : Prop :=
  (3 ≤ length row)%nat
  ∧ strip (MenuItem.cell row SheetColumns.CALLBACK_DATA) ≠ []
  ∧ strip (MenuItem.cell row SheetColumns.TEXT) ≠ [].

(** "A fetch time is recorded and now - fetchedAt < ttlSeconds." *)
Definition cache_fresh (c : DataCache.t) (now : Qc) : Prop :=
  ∃ fetched_at, DataCache.last_update c = Some fetched_at
                ∧ (now - fetched_at < Qc_of_Z (DataCache.cache_duration c))%Qc.
End SpecVocabulary.

(** "A leading digit 8 rewritten to 7." *)
Definition rewrite_leading_8 (digits : str) : str :=
  match digits with
  | 56 :: rest => 55 :: rest
  | _ => digits
  end.

(** The actions that a control set offers, in reading order. *)
Definition keyboard_actions (reply_markup : option InlineKeyboardMarkup) : list str :=
  match reply_markup with
  | Some rows => button_callback_data <$> concat rows
  | None => []
  end.

(** ** Facts about strings *)

Lemma startswith_spec (s p : str) :
  startswith s p = true ↔ ∃ post, s = p ++ post.
Proof.
  revert s; induction p as [|c p IH]; intros s; simpl.
  - split; [intros _; by exists s | done].
  - destruct s as [|d s]; simpl.
    + split; [done | intros [post Hpost]; discriminate].
    + rewrite andb_true_iff, N.eqb_eq, IH. split.
      * intros [-> [post ->]]. by exists post.
      * intros [post Hpost]. injection Hpost as -> ->. eauto.
Qed.

Lemma contains_spec (s sub : str) :
  contains s sub = true ↔ substring sub s.
Proof.
  unfold substring. induction s as [|c s IH]; simpl.
  - rewrite orb_false_r, startswith_spec. split.
    + intros [post Hpost]. exists [], post. done.
    + intros (pre & post & Heq). symmetry in Heq.
      apply app_eq_nil in Heq as [-> Heq]. apply app_eq_nil in Heq as [-> ->].
      by exists [].
  - rewrite orb_true_iff, startswith_spec, IH. split.
    + intros [[post Hpost] | (pre & post & ->)].
      * exists [], post. done.
      * exists (c :: pre), post. done.
    + intros (pre & post & Heq). destruct pre as [|d pre]; simpl in Heq.
      * left. eauto.
      * right. injection Heq as -> ->. eauto.
Qed.

#[global] Instance substring_dec (sub s : str) : Decision (substring sub s).
Proof.
  destruct (contains s sub) eqn:Hc.
  - left. by apply contains_spec.
  - right. intros Hs. apply contains_spec in Hs. congruence.
Defined.

Lemma truthy_false (s : str) : truthy s = false ↔ s = [].
Proof. by destruct s. Qed.

Lemma truthy_true (s : str) : truthy s = true ↔ s ≠ [].
Proof. by destruct s. Qed.

#[global] Instance search_match_dec `{!Unicode} query item :
  Decision (search_match query item).
Proof. unfold search_match. apply _. Defined.

(** Appending inside a loop builds the list that [omap] builds. *)
Lemma foldl_snoc_omap {A B} (f : A → option B) (step : list B → A → list B)
    (xs : list A) (acc : list B) :
  (∀ acc x, step acc x = acc ++ from_option (λ y, [y]) [] (f x)) →
  foldl step acc xs = acc ++ omap f xs.
Proof.
  intros Hstep. revert acc; induction xs as [|x xs IH]; intros acc; simpl.
  - by rewrite app_nil_r.
  - rewrite IH, Hstep. destruct (f x); simpl; by rewrite <- ?app_assoc, ?app_nil_r.
Qed.

(** ** Snapshot building (C7, C8) *)

Section Rows.
Context `{!Unicode}.

Lemma from_row_is_Some (row : list str) :
  is_Some (MenuItem.from_row row) ↔ well_formed_row row.
Proof.
  unfold MenuItem.from_row, well_formed_row, SheetColumns.CALLBACK_DATA,
    SheetColumns.TEXT.
  case_bool_decide as Hlen.
  - split; [intros [? ?]; discriminate | lia].
  - destruct (truthy (strip (MenuItem.cell row 0))) eqn:H0;
      destruct (truthy (strip (MenuItem.cell row 2))) eqn:H2; simpl.
    + apply truthy_true in H0, H2. split; [intros _; split_and!; [lia|done..] | eauto].
    + apply truthy_false in H2. split; [intros [? ?]; discriminate | tauto].
    + apply truthy_false in H0. split; [intros [? ?]; discriminate | tauto].
    + apply truthy_false in H0. split; [intros [? ?]; discriminate | tauto].
Qed.

Lemma blank_row_from_row (row : list str) :
  GoogleSheetsManager.blank_row row = true → MenuItem.from_row row = None.
Proof.
  intros Hblank. destruct (MenuItem.from_row row) eqn:Hrow; [|done].
  assert (Hwf : well_formed_row row) by (apply from_row_is_Some; eauto).
  destruct Hwf as (Hlen & H0 & _). destruct row as [|c row]; [simpl in Hlen; lia|].
  simpl in Hblank. apply negb_true_iff, orb_false_iff in Hblank as [Hc _].
  apply truthy_false in Hc. done.
Qed.

Lemma fetch_step_omap (menu_items : list MenuItem.t) (row : list str) :
  GoogleSheetsManager.fetch_step menu_items row
  = menu_items ++ from_option (λ y, [y]) [] (MenuItem.from_row row).
Proof.
  unfold GoogleSheetsManager.fetch_step.
  destruct (GoogleSheetsManager.blank_row row) eqn:Hblank.
  - rewrite blank_row_from_row by done. simpl. by rewrite app_nil_r.
  - destruct (MenuItem.from_row row); simpl; by rewrite ?app_nil_r.
Qed.

(** C7. Snapshot building skips row 0 (the header) and keeps, in order,
    exactly the later rows that convert; a row converts if and only if it
    has at least 3 fields and its id and displayText are non-empty after
    trimming; conversion is a total function, so a row failing the test
    yields [None] and is dropped without any error. *)
Theorem snapshot_building_drops_malformed_rows :
  ∀ (header : list str) (rows : list (list str)) (row : list str),
    GoogleSheetsManager.build_menu_items (header :: rows)
      = omap MenuItem.from_row rows
    ∧ GoogleSheetsManager.build_menu_items [] = []
    ∧ (is_Some (MenuItem.from_row row) ↔ well_formed_row row)
    ∧ (MenuItem.from_row row = None ↔ ¬ well_formed_row row).
Proof.
  intros header rows row. split_and!.
  - unfold GoogleSheetsManager.build_menu_items.
    by rewrite (foldl_snoc_omap MenuItem.from_row) by apply fetch_step_omap.
  - done.
  - apply from_row_is_Some.
  - rewrite <- from_row_is_Some, eq_None_not_Some. done.
Qed.

Lemma ContentType_value_recognized (ct : ContentType) :
  ContentType_value ct ∈ recognized_content_types.
Proof.
  unfold recognized_content_types.
  destruct ct; simpl; repeat first [apply list_elem_of_here | apply list_elem_of_further].
Qed.

Lemma ContentType_of_value_Some (s : str) (ct : ContentType) :
  ContentType_of_value s = Some ct → ContentType_value ct = s.
Proof.
  unfold ContentType_of_value. intros Hfind.
  apply find_some in Hfind as [_ Hdec]. by apply bool_decide_eq_true in Hdec.
Qed.

Lemma ContentType_of_value_text : ContentType_of_value (py "text") = Some TEXT.
Proof. vm_compute. reflexivity. Qed.

(** C8 (amended). A row whose contentType field, after trimming, is not
    one of the recognized strings converts to an item of content type
    text, and such an item is rendered by the plain-text renderer. *)
Theorem unrecognized_type_normalizes_to_text :
  ∀ (row : list str) (item : MenuItem.t),
    strip (MenuItem.cell row SheetColumns.TYPE) ∉ recognized_content_types →
    MenuItem.from_row row = Some item →
    MenuItem.content_type item = TEXT
    ∧ ∀ message menu_data,
        _show_item_content message item menu_data = _show_text_content message item.
Proof.
  intros row item Hnot Hrow.
  assert (Htext : MenuItem.content_type item = TEXT).
  { unfold MenuItem.from_row in Hrow. unfold SheetColumns.TYPE in Hnot.
    case_bool_decide; [discriminate|].
    destruct (negb _ || negb _); [discriminate|].
    injection Hrow as <-. simpl.
    case_bool_decide.
    - destruct (ContentType_of_value _) as [ct|] eqn:Hct; [|done].
      apply ContentType_of_value_Some in Hct. exfalso. apply Hnot.
      rewrite <- Hct. apply ContentType_value_recognized.
    - by rewrite ContentType_of_value_text. }
  split; [done|]. intros message menu_data.
  unfold _show_item_content. by rewrite Htext.
Qed.
End Rows.

(** *** Concrete rows *)

(** A row whose type field reads "video". *)
Definition video_row : list str :=
  [py "v1"; []; py "Intro"; py "clip"; py "video"].

Definition video_item : MenuItem.t :=
  MenuItem.mk (py "v1") [] (py "Intro") (py "clip") TEXT [].

(** A row whose type field is "phone" preceded by a space. *)
Definition padded_phone_row : list str :=
  [py "c1"; py "root1"; py "Контакты"; py "+7 999 123 4567"; py " phone"].

Lemma unrecognized_type_normalizes_to_text_witness :
  MenuItem.content_type video_item = TEXT
  ∧ ∀ message menu_data,
      @_show_item_content latin_cyrillic message video_item menu_data
      = _show_text_content message video_item.
Proof.
  apply (@unrecognized_type_normalizes_to_text latin_cyrillic video_row video_item).
  - apply (bool_decide_unpack _). vm_compute. exact I.
  - vm_compute. reflexivity.
Defined.

(** C8 as stated fails: the field " phone" is none of the recognized
    strings, yet the row converts to an item of content type phone, because
    the field is trimmed before it is looked up. *)
Lemma padded_type_field_is_recognized :
  (MenuItem.cell padded_phone_row SheetColumns.TYPE ∉ recognized_content_types)
  ∧ (MenuItem.content_type <$> @MenuItem.from_row latin_cyrillic padded_phone_row)
    = Some PHONE
  ∧ PHONE ≠ TEXT.
Proof.
  split_and!.
  - apply (bool_decide_unpack _). vm_compute. exact I.
  - vm_compute. reflexivity.
  - discriminate.
Qed.

(** ** Rendering (C3, C6) *)

Lemma foldl_snoc_map {A B} (g : A → B) (xs : list A) (acc : list B) :
  foldl (λ acc x, acc ++ [g x]) acc xs = acc ++ (g <$> xs).
Proof.
  revert acc; induction xs as [|x xs IH]; intros acc; simpl.
  - by rewrite app_nil_r.
  - rewrite IH. by rewrite <- app_assoc.
Qed.

Lemma child_rows_fmap (children : list MenuItem.t) :
  child_rows children
  = (λ child, [Button (MenuItem.text child) (MenuItem.callback_data child)]) <$> children.
Proof. unfold child_rows. by rewrite foldl_snoc_map. Qed.

Lemma keyboard_actions_child_rows (children : list MenuItem.t)
    (nav_buttons : list InlineKeyboardButton) :
  keyboard_actions (Some (child_rows children ++ [nav_buttons]))
  = (MenuItem.callback_data <$> children) ++ (button_callback_data <$> nav_buttons).
Proof.
  rewrite child_rows_fmap. unfold keyboard_actions.
  rewrite concat_app, fmap_app. simpl. rewrite app_nil_r. f_equal.
  induction children as [|c cs IH]; simpl; [done|]. f_equal. exact IH.
Qed.

Lemma py_main_menu_refresh :
  button_callback_data <$> [MAIN_MENU_BUTTON; REFRESH_BUTTON]
  = [py "main_menu"; py "refresh"].
Proof. reflexivity. Qed.

Section Rendering.
Context `{!Unicode}.

(** C3 (amended). An item of content type menu that has at least one child
    is rendered with its text (and payload, when there is one) and a control
    set that holds exactly one action per child, in snapshot order, followed
    by one row with the "main_menu" and "refresh" actions, and nothing
    else. *)
Theorem menu_controls_children_main_menu_refresh :
  ∀ (message : Message) (item : MenuItem.t) (menu_data : list MenuItem.t) (w : World),
    let children :=
      filter (λ c, MenuItem.parent c = MenuItem.callback_data item) menu_data in
    let keyboard :=
      ((λ c, [Button (MenuItem.text c) (MenuItem.callback_data c)]) <$> children)
        ++ [[MAIN_MENU_BUTTON; REFRESH_BUTTON]] in
    MenuItem.content_type item = MENU →
    children ≠ [] →
    _show_item_content message item menu_data w
    = call_safe_edit_message message
        (if decide (MenuItem.data item = [])
         then MenuItem.text item
         else MenuItem.text item ++ NL ++ NL ++ MenuItem.data item)
        (Some keyboard) None w
    ∧ keyboard_actions (Some keyboard)
      = (MenuItem.callback_data <$> children) ++ [py "main_menu"; py "refresh"].
Proof.
  intros message item menu_data w children keyboard Hmenu Hchildren.
  assert (Hactions : keyboard_actions (Some keyboard)
            = (MenuItem.callback_data <$> children) ++ [py "main_menu"; py "refresh"]).
  { unfold keyboard. rewrite <- child_rows_fmap.
    by rewrite keyboard_actions_child_rows, py_main_menu_refresh. }
  split_and!.
  - unfold _show_item_content. rewrite Hmenu. unfold _show_menu.
    fold children. destruct children as [|c cs] eqn:Hc; [done|].
    simpl negb. cbv iota. rewrite child_rows_fmap. unfold keyboard.
    change (([] ++ [MAIN_MENU_BUTTON]) ++ [REFRESH_BUTTON])
      with [MAIN_MENU_BUTTON; REFRESH_BUTTON].
    cbv iota. destruct (MenuItem.data item) as [|d ds]; [|case_decide]; done.
  - done.
Qed.
End Rendering.

(** *** The scenario of the specification *)

Definition root1 : MenuItem.t :=
  MenuItem.mk (py "root1") [] (py "Клиника") [] MENU [].

Definition c1 : MenuItem.t :=
  MenuItem.mk (py "c1") (py "root1") (py "Контакты") (py "+7 999 123 4567") PHONE [].

Definition scenario_snapshot : list MenuItem.t := [root1; c1].

Definition blank_message : Message :=
  {| message_text := None; message_reply_markup := None |}.

Definition empty_world : World :=
  {| cache := DataCache.init Config.CACHE_DURATION; user_data := ∅;
     clock_reads := 0; fetches := 0; outbox := [] |}.

Ltac by_computation := apply (bool_decide_unpack _); vm_compute; exact I.

Lemma menu_controls_children_main_menu_refresh_witness :
  keyboard_actions
    (Some [[Button (py "Контакты") (py "c1")]; [MAIN_MENU_BUTTON; REFRESH_BUTTON]])
  = [py "c1"; py "main_menu"; py "refresh"].
Proof.
  destruct (@menu_controls_children_main_menu_refresh latin_cyrillic
              blank_message root1 scenario_snapshot empty_world) as [_ Hactions].
  - reflexivity.
  - by_computation.
  - exact Hactions.
Defined.

(** C3 as stated fails on the scenario of the specification: rendering
    [root1] offers the child, "main_menu" and "refresh", which is not "one
    action per child plus refresh, and no other controls". *)
Lemma root1_controls_include_main_menu :
  (λ req, keyboard_actions (edit_reply_markup req))
    <$> outbox (snd (@_show_item_content latin_cyrillic
                       blank_message root1 scenario_snapshot empty_world))
  = [[py "c1"; py "main_menu"; py "refresh"]]
  ∧ [py "c1"; py "main_menu"; py "refresh"]
    ≠ (MenuItem.callback_data
         <$> filter (λ c, MenuItem.parent c = MenuItem.callback_data root1)
                    scenario_snapshot)
      ++ [py "refresh"].
Proof.
  split.
  - vm_compute. reflexivity.
  - by_computation.
Qed.

Section PhoneRendering.
Context `{!Unicode}.

Lemma sub_non_digits_strip (payload : str) :
  MessageFormatter.sub_non_digits payload = strip_non_digits payload.
Proof.
  unfold MessageFormatter.sub_non_digits, strip_non_digits.
  induction payload as [|c payload IH]; [done|].
  rewrite filter_cons. cbn [List.filter]. destruct (isdigit c) eqn:Hc.
  - rewrite decide_True by done. by rewrite IH.
  - rewrite decide_False by congruence. done.
Qed.

Lemma leading_8_rewrite (digits : str) :
  (if startswith digits (py "8") then py "7" ++ drop 1 digits else digits)
  = rewrite_leading_8 digits.
Proof.
  change (py "8") with [56]. change (py "7") with [55].
  destruct digits as [|d digits]; [done|]. simpl.
  rewrite andb_true_r. destruct (56 =? d) eqn:Hd.
  - apply N.eqb_eq in Hd as <-. by rewrite drop_0.
  - apply N.eqb_neq in Hd. unfold rewrite_leading_8.
    destruct d as [|p]; [done|].
    do 6 (try (destruct p as [p|p|]; try done)).
Qed.
End PhoneRendering.

Section PhoneClaim.
Context `{!Unicode}.

(** C6. A phone-type item is rendered with a body made of its text, a
    contact reference and the optional note; the reference is [tel:+]
    followed by the payload with every non-digit character stripped and a
    leading 8 rewritten to 7.  On the payload "+7 999 123 4567" the
    reference is [tel:+79991234567] under every runtime whose digit class
    is the usual one on that payload. *)
Theorem phone_reference_is_normalized_payload :
  ∀ (message : Message) (item : MenuItem.t) (menu_data : list MenuItem.t) (w : World),
    MenuItem.content_type item = PHONE →
    let reference := rewrite_leading_8 (strip_non_digits (MenuItem.data item)) in
    let body :=
      MenuItem.text item ++ NL ++ NL ++ py "📞 <a href='" ++ py "tel:+" ++ reference
        ++ py "'>" ++ MenuItem.data item ++ py "</a>"
        ++ (if decide (MenuItem.extra item = []) then []
            else NL ++ NL ++ py "💡 " ++ MenuItem.extra item) in
    _show_item_content message item menu_data w
    = call_safe_edit_message message body (Some [[BACK_BUTTON]; [MAIN_MENU_BUTTON]]) HTML w
    ∧ substring (py "tel:+" ++ reference) body
    ∧ (MenuItem.data item = py "+7 999 123 4567" →
       (∀ c, c ∈ py "+7 999 123 4567" → isdigit c = (48 <=? c) && (c <=? 57)) →
       py "tel:+" ++ reference = py "tel:+79991234567").
Proof.
  intros message item menu_data w Hphone reference body. split_and!.
  - unfold _show_item_content. rewrite Hphone.
    unfold _show_phone_content, MessageFormatter.format_phone.
    rewrite sub_non_digits_strip, leading_8_rewrite. fold reference.
    f_equal. unfold body.
    change (py "📞 <a href='tel:+") with (py "📞 <a href='" ++ py "tel:+").
    destruct (MenuItem.extra item) as [|e es]; cbn [truthy].
    + rewrite decide_True by done. by rewrite <- !app_assoc, app_nil_r.
    + rewrite decide_False by done. by rewrite <- !app_assoc.
  - unfold body. exists (MenuItem.text item ++ NL ++ NL ++ py "📞 <a href='").
    eexists. rewrite <- !app_assoc. reflexivity.
  - intros Hdata Hdigits. unfold reference. rewrite Hdata. f_equal.
    rewrite <- sub_non_digits_strip. unfold MessageFormatter.sub_non_digits.
    rewrite (filter_ext_in _ (λ c, (48 <=? c) && (c <=? 57))).
    + vm_compute. reflexivity.
    + intros c Hc. apply Hdigits. by apply list_elem_of_In.
Qed.
End PhoneClaim.

Lemma phone_reference_is_normalized_payload_witness :
  @_show_item_content latin_cyrillic blank_message c1 scenario_snapshot empty_world
  = call_safe_edit_message blank_message
      (py "Контакты" ++ NL ++ NL
         ++ py "📞 <a href='tel:+79991234567'>+7 999 123 4567</a>")
      (Some [[BACK_BUTTON]; [MAIN_MENU_BUTTON]]) HTML empty_world
  ∧ py "tel:+" ++ rewrite_leading_8 (@strip_non_digits latin_cyrillic (MenuItem.data c1))
    = py "tel:+79991234567".
Proof.
  destruct (@phone_reference_is_normalized_payload latin_cyrillic
              blank_message c1 scenario_snapshot empty_world)
    as (Hrender & _ & Hreference).
  - reflexivity.
  - split.
    + rewrite Hrender. vm_compute. reflexivity.
    + apply Hreference; [reflexivity|]. intros c _. reflexivity.
Defined.

(** ** Navigation (C1, C9) *)

(** A handler action that leaves the session dictionary alone. *)
Definition keeps_user_data {A} (m : M A) : Prop :=
  ∀ w, user_data (snd (m w)) = user_data w.

Create HintDb keeps discriminated.

Lemma keeps_ret {A} (a : A) : keeps_user_data (ret a).
Proof. done. Qed.

Lemma keeps_bind {A B} (m : M A) (k : A → M B) :
  keeps_user_data m → (∀ a, keeps_user_data (k a)) → keeps_user_data (bind m k).
Proof.
  intros Hm Hk w. unfold bind. specialize (Hm w).
  destruct (m w) as [[a|] w']; simpl in *; [|done].
  by rewrite Hk.
Qed.

Lemma keeps_time_time (E : Env) : keeps_user_data (time_time E).
Proof. done. Qed.

Lemma keeps_call_safe_edit_message message text reply_markup parse_mode :
  keeps_user_data (call_safe_edit_message message text reply_markup parse_mode).
Proof. done. Qed.

#[global] Hint Resolve keeps_ret keeps_bind keeps_time_time
  keeps_call_safe_edit_message : keeps.

Section Navigation.
Context `{!Unicode}.
Variable E : Env.

Lemma keeps_fetch_data : keeps_user_data (fetch_data E).
Proof. intros w. unfold fetch_data. by destruct (sheet E (fetches w)). Qed.

Lemma keeps_cache_is_valid : keeps_user_data (cache_is_valid E).
Proof. intros w. unfold cache_is_valid. by destruct (DataCache.last_update (cache w)). Qed.

Lemma keeps_cache_update new_data : keeps_user_data (cache_update E new_data).
Proof. done. Qed.

Hint Resolve keeps_fetch_data keeps_cache_is_valid keeps_cache_update : keeps.

Lemma keeps_get_menu_data force_refresh :
  keeps_user_data (get_menu_data E force_refresh).
Proof.
  unfold get_menu_data. apply keeps_bind.
  - destruct force_refresh; auto with keeps.
  - intros stale. apply keeps_bind; [destruct stale; auto with keeps|].
    intros _ w. done.
Qed.

Lemma keeps_show_error message error_text :
  keeps_user_data (_show_error message error_text).
Proof. unfold _show_error. auto with keeps. Qed.

Lemma keeps_show_text_content message item :
  keeps_user_data (_show_text_content message item).
Proof. unfold _show_text_content. auto with keeps. Qed.

Lemma keeps_show_item_content message item menu_data :
  keeps_user_data (_show_item_content message item menu_data).
Proof.
  unfold _show_item_content, _show_menu, _show_phone_content, _show_link_content.
  pose proof (keeps_show_text_content message item).
  destruct (MenuItem.content_type item); try done;
    destruct (filter _ menu_data); done.
Qed.

Lemma keeps_show_main_menu message : keeps_user_data (_show_main_menu E message).
Proof.
  unfold _show_main_menu. apply keeps_bind; [apply keeps_get_menu_data|].
  intros menu_data. destruct (filter _ menu_data); [apply keeps_show_error|].
  auto with keeps.
Qed.

Lemma last_removelast (stack : list (list N)) (top : list N) :
  last stack = Some top → stack = removelast stack ++ [top].
Proof.
  intros Hlast. destruct stack as [|x stack _] using rev_ind; [done|].
  rewrite last_snoc in Hlast. injection Hlast as ->.
  by rewrite removelast_last.
Qed.

(** The state change of the back transition on a stack of depth two or
    more, whatever is rendered. *)
Lemma back_pops_stored_stack (message : Message) (w : World) :
  (2 ≤ length (NavigationManager.get_nav_stack (user_data w)))%nat →
  user_data (snd (_handle_back_button E message w))
  = <[NavigationManager.NAV_STACK :=
        removelast (NavigationManager.get_nav_stack (user_data w))]> (user_data w).
Proof.
  intros Hdepth. unfold _handle_back_button.
  rewrite bool_decide_eq_false_2 by lia.
  unfold NavigationManager.pop_from_nav_stack.
  destruct (last (NavigationManager.get_nav_stack (user_data w))) as [top|] eqn:Htop.
  - set (user_data' := <[_ := _]> (user_data w)).
    set (w1 := set_user_data user_data' w).
    destruct (last (NavigationManager.get_nav_stack user_data')) as [previous_id|].
    + destruct (truthy previous_id).
      * change user_data' with (user_data w1). apply keeps_bind.
        -- apply keeps_get_menu_data.
        -- intros menu_data. destruct (_find_menu_item menu_data previous_id).
           ++ apply keeps_show_item_content.
           ++ apply keeps_show_main_menu.
      * change user_data' with (user_data w1). apply keeps_show_main_menu.
    + change user_data' with (user_data w1). apply keeps_show_main_menu.
  - apply last_None in Htop. rewrite Htop in Hdepth. simpl in Hdepth. lia.
Qed.

(** C9. At depth two or more the back transition removes exactly the top
    entry: the stack afterwards is the old one without its last entry, one
    shorter, every remaining entry in place; this holds for every snapshot,
    so also when the new top resolves to no item and the root menu is shown
    instead. *)
Theorem back_removes_exactly_the_top :
  ∀ (message : Message) (w : World),
    let before := NavigationManager.get_nav_stack (user_data w) in
    let after :=
      NavigationManager.get_nav_stack
        (user_data (snd (_handle_back_button E message w))) in
    (2 ≤ length before)%nat →
    after = removelast before
    ∧ (∃ top, before = after ++ [top])
    ∧ length after = (length before - 1)%nat
    ∧ (∀ i, (i < length after)%nat → after !! i = before !! i).
Proof.
  intros message w before after Hdepth.
  assert (Hafter : after = removelast before).
  { unfold after. rewrite back_pops_stored_stack by done.
    unfold NavigationManager.get_nav_stack at 1. by rewrite lookup_insert_eq. }
  clearbody after before.
  destruct (last before) as [top|] eqn:Htop.
  - apply last_removelast in Htop. rewrite <- Hafter in Htop.
    split_and!; [done | by exists top | |].
    + rewrite Htop, length_app. simpl. lia.
    + intros i Hi. by rewrite Htop, lookup_app_l.
  - apply last_None in Htop. rewrite Htop in Hdepth. simpl in Hdepth. lia.
Qed.

(** At depth below two the back transition is exactly the rendering of the
    root menu, so the session dictionary is left as it was. *)
Lemma back_below_two_is_show_main_menu (message : Message) (w : World) :
  (length (NavigationManager.get_nav_stack (user_data w)) < 2)%nat →
  _handle_back_button E message w = _show_main_menu E message w.
Proof.
  intros Hdepth. unfold _handle_back_button. by rewrite bool_decide_eq_true_2.
Qed.

(** C1, what the code does: at depth one the back transition renders the
    root menu and leaves the single entry on the stack. *)
Theorem back_at_depth_one_keeps_entry :
  ∀ (message : Message) (w : World) (entry : list N),
    NavigationManager.get_nav_stack (user_data w) = [entry] →
    _handle_back_button E message w = _show_main_menu E message w
    ∧ NavigationManager.get_nav_stack
        (user_data (snd (_handle_back_button E message w))) = [entry]
    ∧ NavigationManager.get_nav_stack
        (user_data (snd (_handle_back_button E message w))) ≠ [].
Proof.
  intros message w entry Hstack.
  assert (Hback : _handle_back_button E message w = _show_main_menu E message w).
  { apply back_below_two_is_show_main_menu. rewrite Hstack. simpl. lia. }
  assert (Hkept : NavigationManager.get_nav_stack
            (user_data (snd (_handle_back_button E message w))) = [entry]).
  { by rewrite Hback, keeps_show_main_menu. }
  split_and!; [done..|]. by rewrite Hkept.
Qed.
End Navigation.

(** *** Concrete sessions *)

Definition scenario_sheet : list (list N) → list (list (list N)) := λ header,
  [header;
   [py "root1"; []; py "Клиника"; []; py "menu"];
   [py "c1"; py "root1"; py "Контакты"; py "+7 999 123 4567"; py "phone"]].

(** A clock that advances one second per reading and a spreadsheet that
    always returns the scenario's rows under a header row. *)
Definition scenario_env : Env :=
  {| clock := λ n, Qc_of_Z (Z.of_nat n);
     sheet := λ _, Some (scenario_sheet [py "id"; py "parent"; py "text"]) |}.

(** The session after opening [root1] from the root menu. *)
Definition depth_one_world : World :=
  set_user_data (NavigationManager.push_to_nav_stack ∅ (py "root1")) empty_world.

(** A session two levels deep whose lower entry names no item of the
    snapshot. *)
Definition dangling_world : World :=
  set_user_data
    (NavigationManager.push_to_nav_stack
       (NavigationManager.push_to_nav_stack ∅ (py "gone")) (py "c1"))
    empty_world.

Lemma back_removes_exactly_the_top_witness :
  NavigationManager.get_nav_stack
    (user_data (snd (@_handle_back_button latin_cyrillic scenario_env
                       blank_message dangling_world)))
  = [py "gone"].
Proof.
  destruct (@back_removes_exactly_the_top latin_cyrillic scenario_env
              blank_message dangling_world) as [Hafter _].
  - vm_compute. lia.
  - rewrite Hafter. vm_compute. reflexivity.
Defined.

(** In that session the new top resolves to nothing and the root menu is
    what gets rendered. *)
Example back_falls_back_to_root_menu :
  edit_text <$> outbox (snd (@_handle_back_button latin_cyrillic scenario_env
                               blank_message dangling_world))
  = [py "📋 <b>Главное меню</b>" ++ NL ++ NL ++ py "Выберите нужный раздел:"].
Proof. vm_compute. reflexivity. Qed.

(** A spreadsheet with a second root entry. *)
Definition two_roots_env : Env :=
  {| clock := λ n, Qc_of_Z (Z.of_nat n);
     sheet := λ _, Some (scenario_sheet [py "id"; py "parent"; py "text"]
                           ++ [[py "info"; []; py "Справка"; py "Часы работы"]]) |}.

(** The entry left behind resurfaces: open [root1], go back to the root
    menu, open the root entry [info], go back again; the second back renders
    [root1] and not the root menu. *)
Example stale_entry_resurfaces :
  let w1 := snd (@select_item latin_cyrillic two_roots_env blank_message (py "root1")
                   empty_world) in
  let w2 := snd (@_handle_back_button latin_cyrillic two_roots_env blank_message w1) in
  let w3 := snd (@select_item latin_cyrillic two_roots_env blank_message (py "info") w2) in
  let w4 := snd (@_handle_back_button latin_cyrillic two_roots_env blank_message w3) in
  NavigationManager.get_nav_stack (user_data w2) = [py "root1"]
  ∧ NavigationManager.get_nav_stack (user_data w3) = [py "root1"; py "info"]
  ∧ edit_text <$> outbox w4
    = [py "Клиника";
       py "📋 <b>Главное меню</b>" ++ NL ++ NL ++ py "Выберите нужный раздел:";
       py "Справка" ++ NL ++ NL ++ py "Часы работы";
       py "Клиника"].
Proof. vm_compute. repeat split. Qed.

Lemma back_at_depth_one_keeps_entry_witness :
  NavigationManager.get_nav_stack
    (user_data (snd (@_handle_back_button latin_cyrillic scenario_env
                       blank_message depth_one_world)))
  = [py "root1"].
Proof.
  destruct (@back_at_depth_one_keeps_entry latin_cyrillic scenario_env
              blank_message depth_one_world (py "root1")) as (_ & Hkept & _).
  - vm_compute. reflexivity.
  - exact Hkept.
Defined.

(** ** The cache (C4) *)

Section Cache.
Context `{!Unicode}.
Variable E : Env.

Lemma is_valid_fresh (c : DataCache.t) (now : Qc) :
  DataCache.is_valid c now = true ↔ cache_fresh c now.
Proof.
  unfold DataCache.is_valid, cache_fresh.
  destruct (DataCache.last_update c) as [fetched_at|].
  - rewrite bool_decide_eq_true. split; [eauto|].
    intros (fetched_at' & Heq & Hlt). by injection Heq as ->.
  - split; [done|]. intros (? & ? & _). discriminate.
Qed.

Lemma clear_not_fresh (c : DataCache.t) (now : Qc) :
  ¬ cache_fresh (DataCache.clear c) now.
Proof. intros (? & ? & _). discriminate. Qed.

(** [get_menu_data(False)] on a fresh cache. *)
Lemma get_menu_data_fresh (w : World) :
  cache_fresh (cache w) (clock E (clock_reads w)) →
  get_menu_data E false w
  = (Ok (DataCache.data (cache w)),
     {| cache := cache w; user_data := user_data w;
        clock_reads := S (clock_reads w); fetches := fetches w; outbox := outbox w |}).
Proof.
  intros Hfresh. pose proof Hfresh as (fetched_at & Hlast & _).
  apply is_valid_fresh in Hfresh.
  unfold get_menu_data, bind, cache_is_valid. rewrite Hlast.
  unfold bind, time_time, ret. simpl. by rewrite Hfresh.
Qed.

(** [get_menu_data(False)] on a cache that is not fresh. *)
Lemma get_menu_data_stale (w : World) :
  ¬ cache_fresh (cache w) (clock E (clock_reads w)) →
  let '(result, w') := get_menu_data E false w in
  fetches w' = S (fetches w)
  ∧ outbox w' = outbox w
  ∧ match sheet E (fetches w) with
    | Some raw_data =>
      result = Ok (GoogleSheetsManager.build_menu_items raw_data)
      ∧ DataCache.data (cache w') = GoogleSheetsManager.build_menu_items raw_data
      ∧ DataCache.last_update (cache w') = Some (clock E (clock_reads w' - 1))
      ∧ (clock_reads w < clock_reads w')%nat
    | None => result = Raised ∧ cache w' = cache w
    end.
Proof.
  intros Hstale. rewrite <- is_valid_fresh in Hstale. apply not_true_is_false in Hstale.
  unfold get_menu_data, bind, cache_is_valid.
  destruct (DataCache.last_update (cache w)) as [fetched_at|] eqn:Hlast.
  - unfold bind, time_time, ret. simpl. rewrite Hstale. simpl.
    unfold fetch_data, cache_update, bind, time_time. simpl.
    destruct (sheet E (fetches w)); simpl; [|done].
    split_and!; try done; try lia; by rewrite Nat.sub_0_r.
  - unfold ret. simpl. unfold fetch_data, cache_update, bind, time_time. simpl.
    destruct (sheet E (fetches w)); simpl; [|done].
    split_and!; try done; try lia; by rewrite Nat.sub_0_r.
Qed.

(** C4. [get_menu_data(False)] on a fresh cache (a fetch time is recorded
    and [now - fetchedAt < ttl]) returns the cached snapshot, leaves the
    cache as it is and makes no request to the spreadsheet.  On a cache that
    is not fresh it makes exactly one request; when the spreadsheet answers,
    the snapshot built from the answer is returned and stored together with
    the clock reading taken after the fetch (when the request fails the
    failure is raised to the caller).  A cleared cache is never fresh: it
    holds no snapshot and no fetch time, so the next call fetches whatever
    the TTL. *)
Theorem cached_snapshot_served_until_stale :
  ∀ (w : World),
    let now := clock E (clock_reads w) in
    let result := fst (get_menu_data E false w) in
    let w' := snd (get_menu_data E false w) in
    let cleared := set_cache (DataCache.clear (cache w)) w in
    (cache_fresh (cache w) now →
       result = Ok (DataCache.data (cache w))
       ∧ cache w' = cache w
       ∧ fetches w' = fetches w)
    ∧ (¬ cache_fresh (cache w) now →
       fetches w' = S (fetches w)
       ∧ match sheet E (fetches w) with
         | Some raw_data =>
           result = Ok (GoogleSheetsManager.build_menu_items raw_data)
           ∧ DataCache.data (cache w') = GoogleSheetsManager.build_menu_items raw_data
           ∧ DataCache.last_update (cache w') = Some (clock E (clock_reads w' - 1))
           ∧ (clock_reads w < clock_reads w')%nat
         | None => result = Raised ∧ cache w' = cache w
         end)
    ∧ (DataCache.data (cache cleared) = []
       ∧ DataCache.last_update (cache cleared) = None
       ∧ fetches (snd (get_menu_data E false cleared)) = S (fetches w)).
Proof.
  intros w now result w' cleared. split_and!.
  - intros Hfresh. unfold result, w'. by rewrite get_menu_data_fresh.
  - intros Hstale. pose proof (get_menu_data_stale w Hstale) as Hget.
    unfold result, w'. destruct (get_menu_data E false w) as [r w1]. simpl.
    destruct Hget as (Hfetches & _ & Hsheet). done.
  - done.
  - done.
  - pose proof (get_menu_data_stale cleared (clear_not_fresh _ _)) as Hget.
    destruct (get_menu_data E false cleared) as [r w1]. simpl.
    by destruct Hget as (Hfetches & _).
Qed.
End Cache.

(** A session whose cache was filled at time 0 with the scenario's
    snapshot; the clock reads 1, 2, ... from here on. *)
Definition warm_world : World :=
  {| cache := DataCache.update (DataCache.init Config.CACHE_DURATION) scenario_snapshot 0%Qc;
     user_data := ∅; clock_reads := 1; fetches := 1; outbox := [] |}.

Lemma cached_snapshot_served_until_stale_witness :
  (fst (@get_menu_data latin_cyrillic scenario_env false warm_world) = Ok scenario_snapshot
   ∧ fetches (snd (@get_menu_data latin_cyrillic scenario_env false warm_world)) = 1%nat)
  ∧ (fst (@get_menu_data latin_cyrillic scenario_env false empty_world) = Ok scenario_snapshot
     ∧ fetches (snd (@get_menu_data latin_cyrillic scenario_env false empty_world)) = 1%nat).
Proof.
  split.
  - destruct (@cached_snapshot_served_until_stale latin_cyrillic scenario_env warm_world)
      as (Hfresh & _ & _).
    destruct Hfresh as (Hresult & _ & Hfetches).
    + exists 0%Qc. split; [reflexivity | by_computation].
    + split; [exact Hresult | exact Hfetches].
  - destruct (@cached_snapshot_served_until_stale latin_cyrillic scenario_env empty_world)
      as (_ & Hstale & _).
    destruct Hstale as (Hfetches & Hresult & _).
    + intros (fetched_at & Hlast & _). discriminate Hlast.
    + split; [rewrite Hresult; vm_compute; reflexivity | exact Hfetches].
Defined.

(** ** Search (C5, C10) *)

Lemma foldl_snoc_filter {A} (P : A → Prop) `{!∀ x, Decision (P x)}
    (step : list A → A → list A) (xs acc : list A) :
  (∀ acc x, step acc x = if decide (P x) then acc ++ [x] else acc) →
  foldl step acc xs = acc ++ filter P xs.
Proof.
  intros Hstep. revert acc; induction xs as [|x xs IH]; intros acc; simpl.
  - by rewrite app_nil_r.
  - rewrite IH, Hstep, filter_cons. destruct (decide (P x)); [|done].
    by rewrite <- app_assoc.
Qed.

Lemma occurrences_filter {A} `{!EqDecision A} (P : A → Prop) `{!∀ x, Decision (P x)}
    (x : A) (l : list A) :
  (length (filter (x =.) (filter P l)) ≤ length (filter (x =.) l))%nat.
Proof.
  induction l as [|y l IH]; [done|].
  rewrite (filter_cons P). destruct (decide (P y)).
  - rewrite !(filter_cons (x =.)). destruct (decide (x = y)); simpl; lia.
  - rewrite (filter_cons (x =.)). destruct (decide (x = y)); simpl; lia.
Qed.

Section Search.
Context `{!Unicode}.

Lemma search_items_filter (items : list MenuItem.t) (query : list N) :
  _search_items items query = filter (search_match query) items.
Proof.
  unfold _search_items.
  rewrite (foldl_snoc_filter (search_match query)); [done|].
  intros acc item. unfold search_match.
  destruct (contains (lower (MenuItem.text item)) (lower query)) eqn:Htext.
  { apply contains_spec in Htext. by rewrite decide_True by tauto. }
  destruct (contains (lower (MenuItem.data item)) (lower query)) eqn:Hdata.
  { apply contains_spec in Hdata. by rewrite decide_True by tauto. }
  destruct (contains (lower (MenuItem.extra item)) (lower query)) eqn:Hextra.
  { apply contains_spec in Hextra. by rewrite decide_True by tauto. }
  rewrite decide_False; [done|].
  rewrite <- !contains_spec. rewrite Htext, Hdata, Hextra.
  intros [?|[?|?]]; discriminate.
Qed.

(** C5. Search returns exactly the items whose lower-cased displayText,
    payload or note contains the lower-cased query (any one of the three
    suffices), in snapshot order: the result is the snapshot filtered by
    that condition. *)
Theorem search_returns_matching_items_in_snapshot_order :
  ∀ (items : list MenuItem.t) (query : list N),
    _search_items items query = filter (search_match query) items
    ∧ (∀ item, item ∈ _search_items items query
               ↔ item ∈ items ∧ search_match query item).
Proof.
  intros items query. split; [apply search_items_filter|].
  intros item. rewrite search_items_filter, list_elem_of_filter. tauto.
Qed.

(** C10. The search result is a subsequence of the snapshot: no item occurs
    in it more often than in the snapshot, so an item is returned once even
    when the query occurs in all three of its fields, and a snapshot without
    repeated items gives a result without repeated items. *)
Theorem search_result_is_subsequence_of_snapshot :
  ∀ (items : list MenuItem.t) (query : list N) (item : MenuItem.t),
    _search_items items query `sublist_of` items
    ∧ (length (filter (item =.) (_search_items items query))
       ≤ length (filter (item =.) items))%nat
    ∧ (substring (lower query) (lower (MenuItem.text item))
       ∧ substring (lower query) (lower (MenuItem.data item))
       ∧ substring (lower query) (lower (MenuItem.extra item)) →
       _search_items [item] query = [item])
    ∧ (NoDup items → NoDup (_search_items items query)).
Proof.
  intros items query item. rewrite !search_items_filter. split_and!.
  - apply sublist_filter.
  - apply occurrences_filter.
  - intros (Htext & _ & _). rewrite filter_cons_True; [done|]. by left.
  - intros Hnodup. by apply NoDup_filter.
Qed.
End Search.

(** An item whose three fields all contain "тел" once lower-cased. *)
Definition reception : MenuItem.t :=
  MenuItem.mk (py "reg") [] (py "Телефон регистратуры") (py "телефон: 100") TEXT
    (py "Отдел: тел.").

Lemma search_result_is_subsequence_of_snapshot_witness :
  @_search_items latin_cyrillic [reception] (py "ТЕЛ") = [reception]
  ∧ NoDup (@_search_items latin_cyrillic [reception; c1] (py "ТЕЛ")).
Proof.
  split.
  - destruct (@search_result_is_subsequence_of_snapshot latin_cyrillic
                [reception] (py "ТЕЛ") reception) as (_ & _ & Honce & _).
    apply Honce. split_and!; by_computation.
  - destruct (@search_result_is_subsequence_of_snapshot latin_cyrillic
                [reception; c1] (py "ТЕЛ") reception) as (_ & _ & _ & Hnodup).
    apply Hnodup. by_computation.
Defined.

(** ** Throttling (C2) *)

Module TransportFacts.
Import Transport.
Local Open Scope nat_scope.


Section Retry.
Context `{!Unicode}.
Variable T : nat → Response.











End Retry.
End TransportFacts.


(** *** A transport that throttles twice *)

Definition throttled_twice : nat → Transport.Response := λ call,
  match call with
  | O => Transport.RetryAfter 5
  | S O => Transport.RetryAfter 7
  | _ => Transport.Delivered blank_message
  end.


Definition greeting : Transport.SendRequest :=
  Transport.Send 42 (py "Hello") None None true.

Definition redraw : EditRequest := Edit blank_message (py "Hello") None None.

Definition idle : Transport.State := {| Transport.calls := 0; Transport.trace := [] |}.



(** The item of the specification's search example. *)
Definition registry_desk : MenuItem.t :=
  MenuItem.mk (py "reg") [] (py "Регистратура") (py "обычный текст") TEXT [].

(** Search is case-insensitive on every field; the query "тел" occurs in
    none of the fields of [registry_desk]. *)
Example search_examples :
  @_search_items latin_cyrillic [registry_desk; reception] (py "РЕГИСТР")
  = [registry_desk; reception]
  ∧ @_search_items latin_cyrillic [registry_desk; reception] (py "Текст")
    = [registry_desk]
  ∧ @_search_items latin_cyrillic [registry_desk; reception] (py "отдел")
    = [reception]
  ∧ @_search_items latin_cyrillic [registry_desk] (py "тел") = [].
Proof. vm_compute. repeat split. Qed.

(** * Further properties of the code *)

(** ** Rows and snapshots *)

(** The six-column sheet row that carries an item, laid out as
    [SheetColumns] numbers the columns. *)
Definition row_of_item (item : MenuItem.t) : list (list N) :=
  [MenuItem.callback_data item; MenuItem.parent item; MenuItem.text item;
   MenuItem.data item; ContentType_value (MenuItem.content_type item);
   MenuItem.extra item].

Section Trimming.
Context `{!Unicode}.

(** A string that [strip] leaves alone. *)
Definition trimmed (s : list N) : Prop := strip s = s.

(** Every text field of an item is trimmed, and its id and display text
    are not empty. *)
Definition item_normal (item : MenuItem.t) : Prop :=
  MenuItem.callback_data item ≠ []
  ∧ MenuItem.text item ≠ []
  ∧ trimmed (MenuItem.callback_data item)
  ∧ trimmed (MenuItem.parent item)
  ∧ trimmed (MenuItem.text item)
  ∧ trimmed (MenuItem.data item)
  ∧ trimmed (MenuItem.extra item).

Lemma lstrip_lstrip (s : list N) : lstrip (lstrip s) = lstrip s.
Proof.
  induction s as [|c s IH]; [done|]. simpl.
  destruct (isspace c) eqn:Hc; [done|]. simpl. by rewrite Hc.
Qed.

Lemma lstrip_length (s : list N) : (length (lstrip s) ≤ length s)%nat.
Proof.
  induction s as [|c s IH]; [done|]. simpl.
  destruct (isspace c); simpl; lia.
Qed.

(** [lstrip] keeps a suffix. *)
Lemma lstrip_suffix (s : list N) : ∃ spaces, s = spaces ++ lstrip s.
Proof.
  induction s as [|c s [spaces IH]]; [by exists []|]. simpl.
  destruct (isspace c).
  - exists (c :: spaces). simpl. by rewrite <- IH.
  - by exists [].
Qed.

Lemma lstrip_fixed_head (c : N) (s : list N) :
  lstrip (c :: s) = c :: s → isspace c = false.
Proof.
  simpl. destruct (isspace c); [|done]. intros Heq.
  pose proof (lstrip_length s) as Hlen. rewrite Heq in Hlen. simpl in Hlen. lia.
Qed.

Lemma rstrip_prefix (s : list N) : ∃ spaces, s = rstrip s ++ spaces.
Proof.
  unfold rstrip. destruct (lstrip_suffix (rev s)) as [spaces Heq].
  exists (rev spaces). rewrite <- rev_app_distr, <- Heq. by rewrite rev_involutive.
Qed.

Lemma rstrip_rstrip (s : list N) : rstrip (rstrip s) = rstrip s.
Proof. unfold rstrip. by rewrite rev_involutive, lstrip_lstrip. Qed.

Lemma lstrip_rstrip_fixed (s : list N) :
  lstrip s = s → lstrip (rstrip s) = rstrip s.
Proof.
  intros Hs. destruct (rstrip_prefix s) as [spaces Heq].
  destruct (rstrip s) as [|c r]; [done|].
  rewrite Heq in Hs. simpl in Hs. apply lstrip_fixed_head in Hs.
  simpl. by rewrite Hs.
Qed.

Lemma strip_trimmed (s : list N) : trimmed (strip s).
Proof.
  unfold trimmed, strip.
  rewrite (lstrip_rstrip_fixed (lstrip s)) by apply lstrip_lstrip.
  apply rstrip_rstrip.
Qed.

Lemma strip_nil : strip [] = [].
Proof. done. Qed.

Lemma ContentType_of_value_value (ct : ContentType) :
  ContentType_of_value (ContentType_value ct) = Some ct.
Proof. destruct ct; vm_compute; reflexivity. Qed.

Lemma ContentType_of_value_nil : ContentType_of_value [] = None.
Proof. vm_compute. reflexivity. Qed.

(** Whatever the runtime calls whitespace, trimming the literal "text"
    gives a value that the enumeration resolves to [TEXT] or rejects. *)
Lemma strip_text_literal :
  from_option id TEXT (ContentType_of_value (strip (py "text"))) = TEXT.
Proof.
  change (py "text") with [116; 101; 120; 116].
  unfold strip, rstrip.
  destruct (isspace 116) eqn:H116; destruct (isspace 101) eqn:H101;
    destruct (isspace 120) eqn:H120;
    simpl; rewrite ?H116, ?H101, ?H120; simpl; rewrite ?H116, ?H101, ?H120;
    simpl; rewrite ?H116, ?H101, ?H120; simpl; rewrite ?H116, ?H101, ?H120;
    reflexivity.
Qed.

Lemma from_row_normal (row : list (list N)) (item : MenuItem.t) :
  MenuItem.from_row row = Some item → item_normal item.
Proof.
  unfold MenuItem.from_row. case_bool_decide as Hlen; [done|].
  destruct (truthy (strip (MenuItem.cell row 0))) eqn:Hid; [|done].
  destruct (truthy (strip (MenuItem.cell row 2))) eqn:Htext; [|done].
  simpl. intros [= <-]. unfold item_normal. simpl.
  apply truthy_true in Hid, Htext.
  split_and!; try done; try apply strip_trimmed;
    case_bool_decide; try apply strip_trimmed; apply strip_nil.
Qed.
End Trimming.

Section RowProperties.
Context `{!Unicode}.

Lemma build_menu_items_omap (raw_data : list (list (list N))) :
  GoogleSheetsManager.build_menu_items raw_data
  = omap MenuItem.from_row (drop 1 raw_data).
Proof.
  unfold GoogleSheetsManager.build_menu_items.
  by rewrite (foldl_snoc_omap MenuItem.from_row) by apply fetch_step_omap.
Qed.

Lemma from_row_type_stable (row : list (list N)) (item : MenuItem.t) :
  MenuItem.from_row row = Some item →
  from_option id TEXT
    (ContentType_of_value (strip (ContentType_value (MenuItem.content_type item))))
  = MenuItem.content_type item.
Proof.
  unfold MenuItem.from_row. case_bool_decide as Hlen; [done|].
  destruct (negb _ || negb _); [done|]. intros [= <-]. simpl.
  case_bool_decide as Htype.
  - destruct (ContentType_of_value (strip (MenuItem.cell row 4))) as [ct|] eqn:Hct.
    + apply ContentType_of_value_Some in Hct as Hvalue.
      rewrite Hvalue, strip_trimmed, Hct. done.
    + apply strip_text_literal.
  - rewrite ContentType_of_value_text. apply strip_text_literal.
Qed.

(** X1. Conversion is a normalisation: writing a converted item back as a
    six-column row and converting that row again gives the same item. *)
Theorem from_row_of_converted_item :
  ∀ (row : list (list N)) (item : MenuItem.t),
    MenuItem.from_row row = Some item →
    MenuItem.from_row (row_of_item item) = Some item.
Proof.
  intros row item Hrow.
  pose proof (from_row_normal row item Hrow) as (Hid & Htext & Tid & Tparent & Ttext & Tdata & Textra).
  pose proof (from_row_type_stable row item Hrow) as Htype.
  unfold MenuItem.from_row, row_of_item. simpl length.
  rewrite bool_decide_eq_false_2 by lia.
  rewrite !bool_decide_eq_true_2 by lia.
  unfold MenuItem.cell, trimmed in *. simpl.
  rewrite !Tid, !Tparent, !Ttext, !Tdata, !Textra.
  apply truthy_true in Hid, Htext. rewrite Hid, Htext. simpl.
  destruct (ContentType_of_value _) as [ct|]; simpl in Htype; rewrite Htype;
    by destruct item.
Qed.

Lemma cell_padded (row : list (list N)) (k i : nat) :
  MenuItem.cell (row ++ replicate k []) i = MenuItem.cell row i.
Proof.
  unfold MenuItem.cell. destruct (decide (i < length row)%nat) as [Hi|Hi].
  - by rewrite lookup_app_l.
  - rewrite lookup_app_r by lia. rewrite (lookup_ge_None_2 row) by lia. simpl.
    destruct (replicate k [] !! (i - length row)%nat) as [c|] eqn:Hc; [|done].
    apply lookup_replicate in Hc as [-> _]. done.
Qed.

(** X2. Trailing empty cells do not matter: a row of at least three cells
    converts to the same result with any number of empty cells appended,
    so a missing payload, type or note column reads like an empty one, and
    an empty type cell reads as [text]. *)
Theorem from_row_ignores_trailing_empty_cells :
  ∀ (row : list (list N)) (k : nat),
    (3 ≤ length row)%nat →
    MenuItem.from_row (row ++ replicate k []) = MenuItem.from_row row.
Proof.
  intros row k Hlen. unfold MenuItem.from_row.
  rewrite !cell_padded, length_app, length_replicate.
  rewrite !(bool_decide_eq_false_2 (_ < 3)%nat) by lia.
  destruct (negb _ || negb _); [done|]. do 2 f_equal.
  - repeat case_bool_decide; try done; try lia.
    unfold MenuItem.cell. by rewrite lookup_ge_None_2 by lia.
  - repeat case_bool_decide; try done; try lia.
    unfold MenuItem.cell. rewrite lookup_ge_None_2 by lia.
    change (strip (default [] None)) with (@nil N).
    by rewrite ContentType_of_value_nil, ContentType_of_value_text.
  - repeat case_bool_decide; try done; try lia.
    unfold MenuItem.cell. by rewrite lookup_ge_None_2 by lia.
Qed.

(** X3. Every item of a built snapshot has a non-empty id and a non-empty
    display text, and every text field of it is trimmed; the snapshot never
    has more items than the sheet has rows under the header, and a sheet
    without such rows gives the empty snapshot. *)
Theorem snapshot_items_are_normal :
  ∀ (raw_data : list (list (list N))) (header : list (list N)),
    Forall item_normal (GoogleSheetsManager.build_menu_items raw_data)
    ∧ (length (GoogleSheetsManager.build_menu_items raw_data)
       ≤ length raw_data - 1)%nat
    ∧ GoogleSheetsManager.build_menu_items [] = []
    ∧ GoogleSheetsManager.build_menu_items [header] = [].
Proof.
  intros raw_data header. rewrite build_menu_items_omap. split_and!.
  - apply Forall_forall. intros item Hitem.
    apply list_elem_of_omap in Hitem as (row & _ & Hrow).
    by apply (from_row_normal row).
  - rewrite <- length_drop. generalize (drop 1 raw_data). intros rows.
    induction rows as [|row rows IH]; [done|].
    unfold omap in *. simpl. destruct (MenuItem.from_row row); simpl; lia.
  - done.
  - done.
Qed.
End RowProperties.

Lemma from_row_of_converted_item_witness :
  @MenuItem.from_row latin_cyrillic (row_of_item c1) = Some c1.
Proof.
  apply (@from_row_of_converted_item latin_cyrillic padded_phone_row c1).
  vm_compute. reflexivity.
Defined.

Lemma from_row_ignores_trailing_empty_cells_witness :
  @MenuItem.from_row latin_cyrillic ([py "v1"; []; py "Intro"] ++ replicate 3 [])
  = @MenuItem.from_row latin_cyrillic [py "v1"; []; py "Intro"].
Proof.
  apply (@from_row_ignores_trailing_empty_cells latin_cyrillic). simpl. lia.
Defined.

(** ** More on the cache *)

Section CacheProperties.
Context `{!Unicode}.
Variable E : Env.

Lemma get_menu_data_keeps_duration (force_refresh : bool) (w : World) :
  DataCache.cache_duration (cache (snd (get_menu_data E force_refresh w)))
  = DataCache.cache_duration (cache w).
Proof.
  unfold get_menu_data, bind, cache_is_valid, ret, fetch_data, cache_update,
    time_time, bind, ret.
  destruct force_refresh; simpl.
  - destruct (sheet E (fetches w)); done.
  - destruct (DataCache.last_update (cache w)); simpl.
    + destruct (DataCache.is_valid _ _); simpl; [done|].
      destruct (sheet E (fetches w)); done.
    + destruct (sheet E (fetches w)); done.
Qed.

(** X4. A forced refresh asks the spreadsheet exactly once whatever the
    state of the cache, fresh or not, and does not consult the clock
    beforehand: when the spreadsheet answers, the snapshot built from the
    answer is returned and stored with the next clock reading; when the
    request fails, the failure is raised and the cache is left as it was. *)
Theorem forced_refresh_always_fetches :
  ∀ (w : World),
    let result := fst (get_menu_data E true w) in
    let w' := snd (get_menu_data E true w) in
    fetches w' = S (fetches w)
    ∧ user_data w' = user_data w
    ∧ outbox w' = outbox w
    ∧ match sheet E (fetches w) with
      | Some raw_data =>
        result = Ok (GoogleSheetsManager.build_menu_items raw_data)
        ∧ cache w'
          = DataCache.update (cache w)
              (GoogleSheetsManager.build_menu_items raw_data)
              (clock E (clock_reads w))
      | None => result = Raised ∧ cache w' = cache w ∧ clock_reads w' = clock_reads w
      end.
Proof.
  intros w. unfold get_menu_data, bind, ret, fetch_data, cache_update, time_time.
  simpl. destruct (sheet E (fetches w)); simpl; done.
Qed.

(** X5. After a fetch, the next call is served from the cache: if
    [get_menu_data(False)] finds the cache stale and the spreadsheet
    answers, then a second call whose clock reading is within the TTL of the
    recorded fetch time returns the same snapshot and makes no request. *)
Theorem second_call_is_served_from_cache :
  ∀ (w : World) (raw_data : list (list (list N))),
    let w1 := snd (get_menu_data E false w) in
    let w2 := snd (get_menu_data E false w1) in
    ¬ cache_fresh (cache w) (clock E (clock_reads w)) →
    sheet E (fetches w) = Some raw_data →
    (clock E (clock_reads w1) - clock E (clock_reads w1 - 1)
     < Qc_of_Z (DataCache.cache_duration (cache w)))%Qc →
    fst (get_menu_data E false w1)
    = Ok (GoogleSheetsManager.build_menu_items raw_data)
    ∧ fst (get_menu_data E false w1) = fst (get_menu_data E false w)
    ∧ fetches w2 = S (fetches w)
    ∧ cache w2 = cache w1.
Proof.
  intros w raw_data w1 w2 Hstale Hsheet Hclock.
  pose proof (get_menu_data_stale E w Hstale) as Hfirst.
  pose proof (get_menu_data_keeps_duration false w) as Hduration.
  unfold w2, w1 in *. destruct (get_menu_data E false w) as [r1 w1'] eqn:Hget.
  simpl in *. rewrite Hsheet in Hfirst.
  destruct Hfirst as (Hfetches & _ & -> & Hdata & Hlast & _).
  assert (Hfresh : cache_fresh (cache w1') (clock E (clock_reads w1'))).
  { exists (clock E (clock_reads w1' - 1)). split; [done|]. by rewrite Hduration. }
  rewrite (get_menu_data_fresh E w1' Hfresh). simpl. by rewrite Hdata.
Qed.

(** X6. A TTL of zero or less switches the cache off: when the recorded
    fetch time is not later than the clock reading, the cache is not fresh
    and [get_menu_data(False)] asks the spreadsheet again. *)
Theorem non_positive_ttl_always_fetches :
  ∀ (w : World) (fetched_at : Qc),
    (DataCache.cache_duration (cache w) ≤ 0)%Z →
    DataCache.last_update (cache w) = Some fetched_at →
    (fetched_at ≤ clock E (clock_reads w))%Qc →
    ¬ cache_fresh (cache w) (clock E (clock_reads w))
    ∧ fetches (snd (get_menu_data E false w)) = S (fetches w).
Proof.
  intros w fetched_at Httl Hlast Hclock.
  assert (Hstale : ¬ cache_fresh (cache w) (clock E (clock_reads w))).
  { intros (fetched_at' & Hlast' & Hlt). rewrite Hlast in Hlast'.
    injection Hlast' as <-.
    apply Z2Qc_inj_le in Httl. apply Qcle_minus_iff in Hclock.
    apply (Qclt_not_le _ _ Hlt). by etrans. }
  split; [done|].
  pose proof (get_menu_data_stale E w Hstale) as Hget.
  destruct (get_menu_data E false w) as [r w']. simpl. by destruct Hget as [? _].
Qed.
End CacheProperties.

(** ** Truncation *)

(** The slice [s[:k]]: the first [k] items, or, for a negative [k], all but
    the last [-k]. *)
Definition slice_to (s : list N) (k : Z) : list N :=
  if bool_decide (k < 0)%Z
  then take (Z.to_nat (Z.max 0 (Z.of_nat (length s) + k))) s
  else take (Z.to_nat k) s.

(** [MessageFormatter.truncate_message] *)
Definition truncate_message (message : list N) (max_length : Z) : list N :=
  if bool_decide (Z.of_nat (length message) ≤ max_length)%Z then message
  else slice_to message (max_length - 3) ++ py "...".

Lemma slice_to_length (s : list N) (k : Z) :
  (0 ≤ k ≤ Z.of_nat (length s))%Z → Z.of_nat (length (slice_to s k)) = k.
Proof.
  intros Hk. unfold slice_to. rewrite bool_decide_eq_false_2 by lia.
  rewrite length_take. lia.
Qed.

Lemma truncate_message_length (message : list N) (max_length : Z) :
  (3 ≤ max_length)%Z →
  (Z.of_nat (length (truncate_message message max_length)) ≤ max_length)%Z.
Proof.
  intros Hmax. unfold truncate_message. case_bool_decide as Hfits; [done|].
  rewrite length_app, Nat2Z.inj_add, slice_to_length by lia.
  change (length (py "...")) with 3%nat. lia.
Qed.

(** X7. With a limit of at least 3, [truncate_message] never returns more
    than the limit: a message that fits is returned as it is, a longer one
    is cut to its first [limit - 3] characters followed by three dots and
    is exactly as long as the limit. *)
Theorem truncate_message_respects_limit :
  ∀ (message : list N) (max_length : Z),
    (3 ≤ max_length)%Z →
    (Z.of_nat (length (truncate_message message max_length)) ≤ max_length)%Z
    ∧ ((Z.of_nat (length message) ≤ max_length)%Z →
       truncate_message message max_length = message)
    ∧ ((max_length < Z.of_nat (length message))%Z →
       truncate_message message max_length
       = take (Z.to_nat (max_length - 3)) message ++ py "..."
       ∧ Z.of_nat (length (truncate_message message max_length)) = max_length).
Proof.
  intros message max_length Hmax. unfold truncate_message.
  case_bool_decide as Hfits.
  - split_and!; [done | done | lia].
  - assert (Hcut : slice_to message (max_length - 3)
                   = take (Z.to_nat (max_length - 3)) message).
    { unfold slice_to. by rewrite bool_decide_eq_false_2 by lia. }
    assert (Hlen : Z.of_nat (length (slice_to message (max_length - 3) ++ py "..."))
                   = max_length).
    { rewrite length_app, Nat2Z.inj_add, slice_to_length by lia.
      change (length (py "...")) with 3%nat. lia. }
    split_and!; [lia | lia |]. intros _. by rewrite <- Hcut.
Qed.

(** X8. With a limit of at least 3, truncating twice is truncating once. *)
Theorem truncate_message_idempotent :
  ∀ (message : list N) (max_length : Z),
    (3 ≤ max_length)%Z →
    truncate_message (truncate_message message max_length) max_length
    = truncate_message message max_length.
Proof.
  intros message max_length Hmax.
  pose proof (truncate_message_length message max_length Hmax) as Hle.
  unfold truncate_message at 1. by rewrite bool_decide_eq_true_2.
Qed.

(** X9. With a limit below 3 the cut goes wrong: a message longer than the
    limit comes back with at least three characters, longer than the
    limit. *)
Theorem truncate_message_small_limit_overflows :
  ∀ (message : list N) (max_length : Z),
    (max_length < 3)%Z →
    (max_length < Z.of_nat (length message))%Z →
    (3 ≤ length (truncate_message message max_length))%nat
    ∧ (max_length < Z.of_nat (length (truncate_message message max_length)))%Z.
Proof.
  intros message max_length Hsmall Hlong. unfold truncate_message.
  rewrite bool_decide_eq_false_2 by lia. rewrite length_app.
  change (length (py "...")) with 3%nat. lia.
Qed.

Lemma truncate_message_respects_limit_witness :
  truncate_message (py "abcdefghij") 8 = py "abcde..."
  ∧ truncate_message (py "abcdefgh") 8 = py "abcdefgh".
Proof.
  destruct (truncate_message_respects_limit (py "abcdefghij") 8) as (_ & _ & Hcut);
    [lia|].
  destruct (truncate_message_respects_limit (py "abcdefgh") 8) as (_ & Hfit & _);
    [lia|].
  split.
  - destruct Hcut as [Hcut _]; [vm_compute; reflexivity|].
    rewrite Hcut. vm_compute. reflexivity.
  - apply Hfit. vm_compute. discriminate.
Defined.

Lemma truncate_message_idempotent_witness :
  truncate_message (truncate_message (py "abcdefghij") 8) 8
  = truncate_message (py "abcdefghij") 8.
Proof. apply truncate_message_idempotent. lia. Defined.

Lemma truncate_message_small_limit_overflows_witness :
  (3 ≤ length (truncate_message (py "abcdef") 2))%nat
  ∧ (2 < Z.of_nat (length (truncate_message (py "abcdef") 2)))%Z.
Proof.
  apply truncate_message_small_limit_overflows; [lia | vm_compute; reflexivity].
Defined.

Example truncate_message_small_limit :
  truncate_message (py "abcdef") 2 = py "abcde..."
  ∧ truncate_message (py "ab") 0 = py "...".
Proof. vm_compute. done. Qed.

(** ** The navigation stack as a stack *)

Module NavigationFacts.
Import NavigationManager.

Lemma get_nav_stack_insert (user_data : gmap string (list (list N)))
    (stack : list (list N)) :
  get_nav_stack (<[NAV_STACK := stack]> user_data) = stack.
Proof. unfold get_nav_stack. by rewrite lookup_insert_eq. Qed.

Lemma push_to_nav_stack_insert (user_data : gmap string (list (list N)))
    (item_id : list N) :
  push_to_nav_stack user_data item_id
  = <[NAV_STACK := get_nav_stack user_data ++ [item_id]]> user_data.
Proof.
  unfold push_to_nav_stack, get_nav_stack.
  destruct (user_data !! NAV_STACK) as [stack|] eqn:Hstack; simpl.
  - by rewrite Hstack.
  - by rewrite lookup_insert_eq, insert_insert_eq.
Qed.

Lemma get_nav_stack_push (user_data : gmap string (list (list N)))
    (item_id : list N) :
  get_nav_stack (push_to_nav_stack user_data item_id)
  = get_nav_stack user_data ++ [item_id].
Proof. by rewrite push_to_nav_stack_insert, get_nav_stack_insert. Qed.

(** X10. Push then pop is a round trip: popping right after pushing [id]
    returns [id] and leaves the stack that was there before the push, with
    every other key of the session dictionary as it was. *)
Theorem pop_after_push :
  ∀ (user_data : gmap string (list (list N))) (item_id : list N),
    let pushed := push_to_nav_stack user_data item_id in
    fst (pop_from_nav_stack pushed) = Some item_id
    ∧ get_nav_stack (snd (pop_from_nav_stack pushed)) = get_nav_stack user_data
    ∧ snd (pop_from_nav_stack pushed)
      = <[NAV_STACK := get_nav_stack user_data]> user_data.
Proof.
  intros user_data item_id pushed. unfold pushed, pop_from_nav_stack.
  rewrite get_nav_stack_push, last_snoc, removelast_last. simpl.
  rewrite push_to_nav_stack_insert, insert_insert_eq.
  split_and!; [done | apply get_nav_stack_insert | done].
Qed.

(** X11. Popping an empty stack, whether the key is missing or holds the
    empty list, returns nothing and changes nothing: in particular it does
    not create the key. *)
Theorem pop_from_empty_stack :
  ∀ (user_data : gmap string (list (list N))),
    get_nav_stack user_data = [] →
    pop_from_nav_stack user_data = (None, user_data)
    ∧ (user_data !! NAV_STACK = None →
       snd (pop_from_nav_stack user_data) !! NAV_STACK = None).
Proof.
  intros user_data Hempty. unfold pop_from_nav_stack. rewrite Hempty. simpl.
  split; [done|]. done.
Qed.

(** X12. The stack is last-in first-out: pushing a sequence of ids leaves
    the old stack with the sequence on top in the order pushed, so the next
    pop returns the last id pushed. *)
Theorem pushes_stack_in_order :
  ∀ (user_data : gmap string (list (list N))) (ids : list (list N)) (top : list N),
    let pushed := foldl push_to_nav_stack user_data (ids ++ [top]) in
    get_nav_stack (foldl push_to_nav_stack user_data ids)
    = get_nav_stack user_data ++ ids
    ∧ fst (pop_from_nav_stack pushed) = Some top
    ∧ get_nav_stack (snd (pop_from_nav_stack pushed))
      = get_nav_stack user_data ++ ids.
Proof.
  intros user_data ids top pushed.
  assert (Hpushes : ∀ ids' ud,
            get_nav_stack (foldl push_to_nav_stack ud ids')
            = get_nav_stack ud ++ ids').
  { induction ids' as [|id ids' IH]; intros ud; simpl.
    - by rewrite app_nil_r.
    - rewrite IH, get_nav_stack_push. by rewrite <- app_assoc. }
  split; [apply Hpushes|].
  unfold pushed. rewrite foldl_app. simpl.
  unfold pop_from_nav_stack.
  rewrite get_nav_stack_push, last_snoc, removelast_last. simpl.
  split; [done|]. by rewrite get_nav_stack_insert, Hpushes.
Qed.

(** X13. The three mutators touch nothing but the stack: every other key of
    the session dictionary reads the same after a push, a pop or a clear;
    and after a clear the stack is empty. *)
Theorem stack_operations_leave_other_keys :
  ∀ (user_data : gmap string (list (list N))) (item_id : list N) (key : string),
    key ≠ NAV_STACK →
    push_to_nav_stack user_data item_id !! key = user_data !! key
    ∧ snd (pop_from_nav_stack user_data) !! key = user_data !! key
    ∧ clear_nav_stack user_data !! key = user_data !! key
    ∧ get_nav_stack (clear_nav_stack user_data) = [].
Proof.
  intros user_data item_id key Hkey. split_and!.
  - rewrite push_to_nav_stack_insert. by rewrite lookup_insert_ne.
  - unfold pop_from_nav_stack. destruct (last _); simpl; [|done].
    by rewrite lookup_insert_ne.
  - unfold clear_nav_stack. by rewrite lookup_insert_ne.
  - apply get_nav_stack_insert.
Qed.
End NavigationFacts.

Lemma pop_from_empty_stack_witness :
  NavigationManager.pop_from_nav_stack (∅ : gmap string (list (list N))) = (None, ∅)
  ∧ snd (NavigationManager.pop_from_nav_stack (∅ : gmap string (list (list N))))
      !! NavigationManager.NAV_STACK = None.
Proof.
  destruct (NavigationFacts.pop_from_empty_stack ∅) as [Hpop Hkey]; [reflexivity|].
  split; [exact Hpop | apply Hkey; reflexivity].
Defined.

Lemma stack_operations_leave_other_keys_witness :
  NavigationManager.push_to_nav_stack
    (<["language"%string := [py "ru"]]> ∅) (py "root1") !! "language"%string
  = Some [py "ru"].
Proof.
  destruct (NavigationFacts.stack_operations_leave_other_keys
              (<["language"%string := [py "ru"]]> ∅) (py "root1") "language")
    as (Hpush & _).
  - discriminate.
  - rewrite Hpush. reflexivity.
Defined.

(** ** Lookup and rendering *)

Definition add_edit (req : EditRequest) (w : World) : World :=
  {| cache := cache w; user_data := user_data w; clock_reads := clock_reads w;
     fetches := fetches w; outbox := outbox w ++ [req] |}.

(** The control set under every leaf screen. *)
Definition LEAF_KEYBOARD : InlineKeyboardMarkup := [[BACK_BUTTON]; [MAIN_MENU_BUTTON]].

Section Lookup.
Context `{!Unicode}.

(** X14. Lookup by id returns the first item of the snapshot that carries
    the id: the result carries the id and belongs to the snapshot, items
    placed after it with the same id are never returned, and the lookup
    fails exactly when no item carries the id. *)
Theorem find_menu_item_first_match :
  ∀ (items : list MenuItem.t) (callback_data : list N),
    (_find_menu_item items callback_data = None
     ↔ ∀ item, item ∈ items → MenuItem.callback_data item ≠ callback_data)
    ∧ (∀ item, _find_menu_item items callback_data = Some item →
         MenuItem.callback_data item = callback_data ∧ item ∈ items)
    ∧ (∀ before item after,
         items = before ++ item :: after →
         MenuItem.callback_data item = callback_data →
         (∀ other, other ∈ before → MenuItem.callback_data other ≠ callback_data) →
         _find_menu_item items callback_data = Some item).
Proof.
  intros items callback_data. unfold _find_menu_item. split_and!.
  - induction items as [|x items IH]; simpl.
    + split; [intros _ item Hitem; by apply elem_of_nil in Hitem | done].
    + case_bool_decide as Hx.
      * split; [done|]. intros Hall. exfalso. apply (Hall x); [left | done].
      * rewrite IH. split.
        -- intros Hall item Hitem. apply elem_of_cons in Hitem as [->|Hitem]; auto.
        -- intros Hall item Hitem. apply Hall. by right.
  - intros item Hfind. apply find_some in Hfind as [Hin Hid].
    apply bool_decide_eq_true in Hid. split; [done|]. by apply list_elem_of_In.
  - intros before item after -> Hid Hbefore.
    induction before as [|x before IH]; simpl.
    + by rewrite bool_decide_eq_true_2.
    + rewrite bool_decide_eq_false_2 by (apply Hbefore; left).
      apply IH. intros other Hother. apply Hbefore. by right.
Qed.

(** X15. Every rendering of an item hands the transport exactly one edit
    of the message it was given, changes nothing else, and the control set
    always holds the "main_menu" action; an item that is neither a menu nor
    a submenu gets exactly the "back" and "main_menu" controls. *)
Theorem item_screen_always_offers_main_menu :
  ∀ (message : Message) (item : MenuItem.t) (menu_data : list MenuItem.t) (w : World),
    ∃ req,
      _show_item_content message item menu_data w = (Ok tt, add_edit req w)
      ∧ edit_message req = message
      ∧ py "main_menu" ∈ keyboard_actions (edit_reply_markup req)
      ∧ (MenuItem.content_type item ≠ MENU →
         MenuItem.content_type item ≠ SUBMENU →
         edit_reply_markup req = Some LEAF_KEYBOARD).
Proof.
  intros message item menu_data w.
  assert (Hleaf : py "main_menu" ∈ keyboard_actions (Some LEAF_KEYBOARD)).
  { by_computation. }
  assert (Hmenu : ∀ is_main, ∃ req,
            _show_menu message item menu_data is_main w = (Ok tt, add_edit req w)
            ∧ edit_message req = message
            ∧ py "main_menu" ∈ keyboard_actions (edit_reply_markup req)).
  { intros is_main. unfold _show_menu.
    destruct (filter _ menu_data) as [|c cs].
    - eexists. split_and!; [reflexivity | done | exact Hleaf].
    - eexists. split_and!; [reflexivity | done |]. simpl edit_reply_markup.
      destruct is_main; cbn [negb app];
        rewrite keyboard_actions_child_rows, elem_of_app; right; by_computation. }
  unfold _show_item_content.
  destruct (MenuItem.content_type item) eqn:Htype;
    try (eexists; split_and!; [reflexivity | done | exact Hleaf | done]).
  - destruct (Hmenu true) as (req & ? & ? & ?). exists req. done.
  - destruct (Hmenu false) as (req & ? & ? & ?). exists req. done.
Qed.

(** X16. A submenu with at least one child is rendered with its text (and
    payload, when there is one) and one action per child in snapshot order,
    followed by one row with "back", "main_menu" and "refresh". *)
Theorem submenu_controls_children_back_main_menu_refresh :
  ∀ (message : Message) (item : MenuItem.t) (menu_data : list MenuItem.t) (w : World),
    let children :=
      filter (λ c, MenuItem.parent c = MenuItem.callback_data item) menu_data in
    let keyboard :=
      ((λ c, [Button (MenuItem.text c) (MenuItem.callback_data c)]) <$> children)
        ++ [[BACK_BUTTON; MAIN_MENU_BUTTON; REFRESH_BUTTON]] in
    MenuItem.content_type item = SUBMENU →
    children ≠ [] →
    _show_item_content message item menu_data w
    = call_safe_edit_message message
        (if decide (MenuItem.data item = [])
         then MenuItem.text item
         else MenuItem.text item ++ NL ++ NL ++ MenuItem.data item)
        (Some keyboard) None w
    ∧ keyboard_actions (Some keyboard)
      = (MenuItem.callback_data <$> children)
          ++ [py "back"; py "main_menu"; py "refresh"].
Proof.
  intros message item menu_data w children keyboard Hsub Hchildren. split.
  - unfold _show_item_content. rewrite Hsub. unfold _show_menu.
    fold children. destruct children as [|c cs] eqn:Hc; [done|].
    simpl negb. cbv iota. rewrite child_rows_fmap. unfold keyboard.
    change ((([] ++ [BACK_BUTTON]) ++ [MAIN_MENU_BUTTON]) ++ [REFRESH_BUTTON])
      with [BACK_BUTTON; MAIN_MENU_BUTTON; REFRESH_BUTTON].
    cbv iota. destruct (MenuItem.data item) as [|d ds]; [|case_decide]; done.
  - unfold keyboard. rewrite <- child_rows_fmap.
    by rewrite keyboard_actions_child_rows.
Qed.

(** X17. A menu or submenu without children in the snapshot, and an item of
    type text or email, is rendered like plain text: the body is the text,
    then the payload and the note when they are not empty, with the "back"
    and "main_menu" controls and no markup mode. *)
Theorem childless_menu_falls_back_to_text :
  ∀ (message : Message) (item : MenuItem.t) (menu_data : list MenuItem.t) (w : World),
    MenuItem.content_type item ≠ PHONE →
    MenuItem.content_type item ≠ LINK →
    (MenuItem.content_type item = MENU ∨ MenuItem.content_type item = SUBMENU →
     filter (λ c, MenuItem.parent c = MenuItem.callback_data item) menu_data = []) →
    _show_item_content message item menu_data w
    = call_safe_edit_message message
        (MenuItem.text item
           ++ (if decide (MenuItem.data item = []) then []
               else NL ++ NL ++ MenuItem.data item)
           ++ (if decide (MenuItem.extra item = []) then []
               else NL ++ NL ++ py "💡 " ++ MenuItem.extra item))
        (Some LEAF_KEYBOARD) None w.
Proof.
  intros message item menu_data w Hphone Hlink Hchildless.
  assert (Htext : _show_text_content message item w
            = call_safe_edit_message message
                (MenuItem.text item
                   ++ (if decide (MenuItem.data item = []) then []
                       else NL ++ NL ++ MenuItem.data item)
                   ++ (if decide (MenuItem.extra item = []) then []
                       else NL ++ NL ++ py "💡 " ++ MenuItem.extra item))
                (Some LEAF_KEYBOARD) None w).
  { unfold _show_text_content, MessageFormatter.format_text. f_equal.
    destruct (MenuItem.data item) as [|d ds]; destruct (MenuItem.extra item) as [|e es];
      cbn [truthy]; repeat case_decide; try done;
      by rewrite <- ?app_assoc, ?app_nil_r. }
  unfold _show_item_content.
  destruct (MenuItem.content_type item) eqn:Htype; try done;
    unfold _show_menu; rewrite Hchildless by auto; exact Htext.
Qed.
End Lookup.

(** ** The handlers of inbound events *)

(** [str(n)] for a non-negative integer. *)
Fixpoint decimal_digits (fuel : nat) (n : N) (acc : list N) : list N :=
  match fuel with
  | O => acc
  | S fuel' =>
    let acc' := (48 + n mod 10) :: acc in
    if n / 10 =? 0 then acc' else decimal_digits fuel' (n / 10) acc'
  end.

Definition str_of_nat (n : nat) : list N := decimal_digits (S n) (N.of_nat n) [].

(** [enumerate(xs, 1)] *)
Definition enumerate_from_1 {A} (xs : list A) : list (nat * A) :=
  zip (seq 1 (length xs)) xs.

Record IncomingMessage := {
  incoming_chat_id : Z;
  incoming_text : option (list N);
}.

Record CallbackQuery := {
  query_data : option (list N);
  query_message : Message;
}.

(** The calls that a handler makes on the platform objects themselves:
    [query.answer()], [query.edit_message_text(text)],
    [update.message.reply_text(text)], and the calls of
    [_safe_send_message]. *)
Inductive Direct :=
  | Answer
  | EditMessageText (text : list N)
  | ReplyText (text : list N)
  | SafeSend (req : Transport.SendRequest).

(** A handler runs on the bot's [World] and on the list of direct calls made
    so far.  The platform answers the call number [k] with [platform k]:
    the message it returns, or [None] when the call raises. *)
Record Chat := {
  world : World;
  sent : list Direct;
}.

Definition H (A : Type) : Type := Chat → Res A * Chat.

Definition hret {A} (a : A) : H A := λ c, (Ok a, c).
Definition hbind {A B} (m : H A) (k : A → H B) : H B :=
  λ c, match m c with
       | (Ok a, c') => k a c'
       | (Raised, c') => (Raised, c')
       end.
Notation "'let+' x ':=' m 'in' k" := (hbind m (λ x, k))
  (at level 10, x name, m at level 100, k at level 200, only parsing).

Definition lift {A} (m : M A) : H A := λ c,
  let '(r, w') := m (world c) in (r, {| world := w'; sent := sent c |}).

(** [try: body except Exception: handler] *)
Definition try_except {A} (body handler : H A) : H A := λ c,
  match body c with
  | (Ok a, c') => (Ok a, c')
  | (Raised, c') => handler c'
  end.

Definition direct_call (platform : nat → option Message) (call : Direct) : H Message :=
  λ c, let c' := {| world := world c; sent := sent c ++ [call] |} in
       match platform (length (sent c)) with
       | Some answer => (Ok answer, c')
       | None => (Raised, c')
       end.

(** A call of [_safe_send_message]: like [_safe_edit_message] it swallows
    every exception, and no handler uses its result. *)
Definition call_safe_send_message (req : Transport.SendRequest) : H unit :=
  λ c, (Ok tt, {| world := world c; sent := sent c ++ [SafeSend req] |}).

Definition nav_clear : M unit :=
  λ w, (Ok tt, set_user_data (NavigationManager.clear_nav_stack (user_data w)) w).

Definition cache_clear : M unit :=
  λ w, (Ok tt, set_cache (DataCache.clear (cache w)) w).

Section Handlers.
Context `{!Unicode}.
Variable E : Env.
Variable platform : nat → option Message.

Definition _handle_refresh (query : CallbackQuery) : H unit :=
  let+ _ := direct_call platform (EditMessageText (py "🔄 Обновляем данные...")) in
  let+ _ := lift cache_clear in
  let+ _ := lift (get_menu_data E true) in
  let+ _ := lift nav_clear in
  lift (_show_main_menu E (query_message query)).

Definition handle_callback_query (callback_query : option CallbackQuery) : H unit :=
  match callback_query with
  | None => hret tt
  | Some query =>
    let+ _ := direct_call platform Answer in
    try_except
      (if decide (query_data query = Some (py "back"))
       then lift (_handle_back_button E (query_message query))
       else if decide (query_data query = Some (py "refresh"))
       then _handle_refresh query
       else if decide (query_data query = Some (py "main_menu"))
       then (let+ _ := lift nav_clear in
             lift (_show_main_menu E (query_message query)))
       else match query_data query with
            | Some item_id => lift (select_item E (query_message query) item_id)
            | None =>
              (* no item's [callback_data] equals [None] *)
              let+ _ := lift (get_menu_data E false) in
              lift (_show_error (query_message query) (py "Элемент не найден"))
            end)
      (lift (_show_error (query_message query) (py "Произошла ошибка")))
  end.

Definition menu_command (message : option IncomingMessage) : H unit :=
  match message with
  | None => hret tt
  | Some _ =>
    let+ _ := lift nav_clear in
    let+ sent_message :=
      direct_call platform (ReplyText (py "📋 Загружаем главное меню...")) in
    lift (_show_main_menu E sent_message)
  end.

Definition HELP_TEXT : list N :=
  py "❓ <b>Справка по использованию бота</b>" ++ NL ++ NL
  ++ py "🔍 <b>Поиск:</b>" ++ NL
  ++ py "Просто напишите ключевое слово или фразу" ++ NL ++ NL
  ++ py "📋 <b>Навигация:</b>" ++ NL
  ++ py "• Используйте кнопки для перехода по разделам" ++ NL
  ++ py "• Кнопка 'Назад' для возврата" ++ NL
  ++ py "• Команда /menu для главного меню" ++ NL ++ NL
  ++ py "📞 <b>Контакты:</b>" ++ NL
  ++ py "Нажмите на номер телефона для звонка" ++ NL ++ NL
  ++ py "🔄 <b>Обновление:</b>" ++ NL
  ++ py "Данные обновляются автоматически каждый час".

Definition help_command (message : option IncomingMessage) : H unit :=
  match message with
  | None => hret tt
  | Some m =>
    call_safe_send_message (Transport.Send (incoming_chat_id m) HELP_TEXT None HTML true)
  end.

Definition _show_contacts (message : IncomingMessage) : H unit :=
  let+ menu_data := lift (get_menu_data E false) in
  match _find_menu_item menu_data (py "main_contacts") with
  | Some contacts_item =>
    let+ sent_message := direct_call platform (ReplyText (py "📞 Загружаем контакты...")) in
    lift (_show_item_content sent_message contacts_item menu_data)
  | None =>
    let+ _ := direct_call platform (ReplyText (py "⚠️ Контакты временно недоступны")) in
    hret tt
  end.

(** One pass of the loop that writes a numbered result with its preview. *)
Definition search_result_entry (response_text : list N) (entry : nat * MenuItem.t)
  : list N :=
  let '(i, item) := entry in
  let response_text :=
    response_text ++ str_of_nat i ++ py ". <b>" ++ MenuItem.text item ++ py "</b>" ++ NL in
  let response_text :=
    if truthy (MenuItem.data item) then
      let preview := take 100 (MenuItem.data item) in
      let preview :=
        if bool_decide (100 < length (MenuItem.data item))%nat
        then preview ++ py "..." else preview in
      response_text ++ py "   " ++ preview ++ NL
    else response_text in
  response_text ++ NL.

Definition search_response_text (search_text : list N) (results : list MenuItem.t)
  : list N :=
  let response_text :=
    py "🔍 <b>Результаты поиска по запросу:</b> " ++ search_text ++ NL ++ NL in
  let response_text :=
    foldl search_result_entry response_text
      (enumerate_from_1 (take Config.MAX_SEARCH_RESULTS results)) in
  if bool_decide (Config.MAX_SEARCH_RESULTS < length results)%nat
  then response_text ++ py "... и еще "
         ++ str_of_nat (length results - Config.MAX_SEARCH_RESULTS)
         ++ py " результатов"
  else response_text.

Definition search_keyboard (results : list MenuItem.t) : InlineKeyboardMarkup :=
  foldl (λ keyboard item,
           keyboard ++ [[Button (py "📄 " ++ MenuItem.text item)
                                (MenuItem.callback_data item)]])
        [] (take Config.MAX_SEARCH_RESULTS results).

Definition _handle_search (message : IncomingMessage) (search_text : list N) : H unit :=
  if negb (truthy search_text) || bool_decide (length search_text < 2)%nat
  then
    let+ _ := direct_call platform
                (ReplyText (py "🔍 Введите минимум 2 символа для поиска")) in
    hret tt
  else
    let+ menu_data := lift (get_menu_data E false) in
    let results := _search_items menu_data search_text in
    match results with
    | [] =>
      let+ _ := direct_call platform
                  (ReplyText (py "🔍 По запросу '" ++ search_text
                                ++ py "' ничего не найдено")) in
      hret tt
    | _ :: _ =>
      call_safe_send_message
        (Transport.Send (incoming_chat_id message)
           (truncate_message (search_response_text search_text results)
                             (Z.of_nat Config.MAX_MESSAGE_LENGTH))
           (Some (search_keyboard results)) HTML true)
    end.

Definition CONTACTS_BUTTON_LABEL : list N := py "📞 Важные контакты".
Definition MENU_BUTTON_LABEL : list N := py "📋 Меню".
Definition HELP_BUTTON_LABEL : list N := py "❓ Помощь".

Definition handle_text_message (message : option IncomingMessage) : H unit :=
  match message with
  | None => hret tt
  | Some m =>
    match incoming_text m with
    | None => hret tt
    | Some raw_text =>
      if negb (truthy raw_text) then hret tt
      else
        let text := strip raw_text in
        if decide (text = MENU_BUTTON_LABEL) then menu_command message
        else if decide (text = CONTACTS_BUTTON_LABEL) then _show_contacts m
        else if decide (text = HELP_BUTTON_LABEL) then help_command message
        else _handle_search m text
    end
  end.
End Handlers.

(** ** The root menu and item selection *)

Definition ROOT_MENU_TEXT : list N :=
  py "📋 <b>Главное меню</b>" ++ NL ++ NL ++ py "Выберите нужный раздел:".

Definition error_screen (message : Message) (error_text : list N) : EditRequest :=
  Edit message (py "⚠️ " ++ error_text) (Some [[MAIN_MENU_BUTTON]; [REFRESH_BUTTON]]) None.

(** The items without a parent, in snapshot order. *)
Definition roots (menu_data : list MenuItem.t) : list MenuItem.t :=
  filter (λ item, MenuItem.parent item = []) menu_data.

Section RootMenu.
Context `{!Unicode}.
Variable E : Env.

Lemma show_error_run (message : Message) (error_text : list N) (w : World) :
  _show_error message error_text w = (Ok tt, add_edit (error_screen message error_text) w).
Proof. done. Qed.

Lemma main_items_roots (menu_data : list MenuItem.t) :
  filter (λ item, truthy (MenuItem.parent item) = false) menu_data = roots menu_data.
Proof. apply list_filter_iff. intros item. apply truthy_false. Qed.

Lemma show_main_menu_run (message : Message) (w : World) :
  _show_main_menu E message w
  = match get_menu_data E false w with
    | (Raised, w1) => (Raised, w1)
    | (Ok menu_data, w1) =>
      match roots menu_data with
      | [] => (Ok tt,
               add_edit (error_screen message (py "Главное меню не настроено")) w1)
      | _ :: _ =>
        (Ok tt,
         add_edit
           (Edit message ROOT_MENU_TEXT
              (Some (((λ c, [Button (MenuItem.text c) (MenuItem.callback_data c)])
                        <$> roots menu_data) ++ [[REFRESH_DATA_BUTTON]]))
              HTML) w1)
      end
    end.
Proof.
  unfold _show_main_menu, bind.
  destruct (get_menu_data E false w) as [[menu_data|] w1]; [|reflexivity].
  rewrite main_items_roots. destruct (roots menu_data) as [|r rs] eqn:Hroots.
  - rewrite show_error_run. reflexivity.
  - rewrite child_rows_fmap. unfold ROOT_MENU_TEXT. reflexivity.
Qed.

(** X18. The root menu shows the snapshot that [get_menu_data(False)]
    returns: one action per item without a parent, in snapshot order,
    followed by a "refresh" action and nothing else; when no item is
    without a parent it shows the "not configured" error with the
    "main_menu" and "refresh" actions instead; when the snapshot cannot be
    fetched nothing is rendered and the failure is raised. *)
Theorem root_menu_lists_roots_and_refresh :
  ∀ (message : Message) (w : World),
    let w1 := snd (get_menu_data E false w) in
    match fst (get_menu_data E false w) with
    | Raised => _show_main_menu E message w = (Raised, w1)
    | Ok menu_data =>
      ∃ req, _show_main_menu E message w = (Ok tt, add_edit req w1)
             ∧ edit_message req = message
             ∧ py "refresh" ∈ keyboard_actions (edit_reply_markup req)
             ∧ (roots menu_data ≠ [] →
                edit_text req = ROOT_MENU_TEXT
                ∧ keyboard_actions (edit_reply_markup req)
                  = (MenuItem.callback_data <$> roots menu_data) ++ [py "refresh"])
             ∧ (roots menu_data = [] →
                req = error_screen message (py "Главное меню не настроено"))
    end.
Proof.
  intros message w w1. unfold w1. rewrite show_main_menu_run.
  destruct (get_menu_data E false w) as [[menu_data|] w']; simpl; [|done].
  destruct (roots menu_data) as [|r rs] eqn:Hroots.
  - eexists. split_and!; [reflexivity | reflexivity | by_computation | | reflexivity].
    intros Hne. by destruct Hne.
  - assert (Hactions :
      keyboard_actions
        (Some (((λ c, [Button (MenuItem.text c) (MenuItem.callback_data c)])
                  <$> r :: rs) ++ [[REFRESH_DATA_BUTTON]]))
      = (MenuItem.callback_data <$> r :: rs) ++ [py "refresh"]).
    { rewrite <- child_rows_fmap. apply keyboard_actions_child_rows. }
    eexists. split_and!; [reflexivity | reflexivity | | | intros [=]].
    + cbn [edit_reply_markup]. rewrite Hactions, elem_of_app. right. apply list_elem_of_here.
    + intros _. split; [reflexivity | exact Hactions].
Qed.

Lemma select_item_run (message : Message) (item_id : list N) (w : World) :
  select_item E message item_id w
  = match get_menu_data E false w with
    | (Raised, w1) => (Raised, w1)
    | (Ok menu_data, w1) =>
      match _find_menu_item menu_data item_id with
      | None => (Ok tt, add_edit (error_screen message (py "Элемент не найден")) w1)
      | Some item =>
        _show_item_content message item menu_data
          (set_user_data
             (NavigationManager.push_to_nav_stack (user_data w1)
                (MenuItem.callback_data item)) w1)
      end
    end.
Proof.
  unfold select_item, bind.
  destruct (get_menu_data E false w) as [[menu_data|] w1]; [|done].
  by destruct (_find_menu_item menu_data item_id).
Qed.

End RootMenu.

(** ** Callback actions *)

Definition add_direct (call : Direct) (c : Chat) : Chat :=
  {| world := world c; sent := sent c ++ [call] |}.

Definition chat_stack (c : Chat) : list (list N) :=
  NavigationManager.get_nav_stack (user_data (world c)).

Lemma lift_run {A} (m : M A) (c : Chat) :
  lift m c = (fst (m (world c)), {| world := snd (m (world c)); sent := sent c |}).
Proof. unfold lift. by destruct (m (world c)). Qed.

(** The screen that [_show_main_menu] asks for, given the snapshot: the root
    menu, or the "not configured" error when no item is without a parent. *)
Definition root_menu_screen (message : Message) (snapshot : list MenuItem.t)
  : EditRequest :=
  match roots snapshot with
  | [] => error_screen message (py "Главное меню не настроено")
  | _ :: _ =>
    Edit message ROOT_MENU_TEXT
      (Some (((λ c, [Button (MenuItem.text c) (MenuItem.callback_data c)])
                <$> roots snapshot) ++ [[REFRESH_DATA_BUTTON]]))
      HTML
  end.

(** What [_safe_edit_message] does with a request: it is skipped without
    any call when the message it is addressed to already carries the text
    and the markup asked for, and it is one call when it differs and the
    transport delivers. *)
Definition edit_is_skipped_or_made `{!Unicode} (req : EditRequest) : Prop :=
  (Transport.unchanged req →
   ∀ T fuel st, Transport._safe_edit_message T (S fuel) req st = Some (true, st))
  ∧ (¬ Transport.unchanged req →
     ∀ T st delivered,
       T (Transport.calls st) = Transport.Delivered delivered →
       Transport._safe_edit_message T 1 req st
       = Some (true, Transport.api_call (Transport.ApiEdit req) st)).

Lemma safe_edit_skipped_or_made `{!Unicode} (req : EditRequest) :
  edit_is_skipped_or_made req.
Proof.
  split.
  - intros Hsame T fuel st. cbn [Transport._safe_edit_message].
    by rewrite bool_decide_eq_true_2 by exact Hsame.
  - intros Hchanged T st delivered HT. cbn [Transport._safe_edit_message].
    rewrite bool_decide_eq_false_2 by exact Hchanged. by rewrite HT.
Qed.

Lemma root_keyboard_actions (rs : list MenuItem.t) :
  keyboard_actions
    (Some (((λ c, [Button (MenuItem.text c) (MenuItem.callback_data c)]) <$> rs)
             ++ [[REFRESH_DATA_BUTTON]]))
  = (MenuItem.callback_data <$> rs) ++ [py "refresh"].
Proof. rewrite <- child_rows_fmap. apply keyboard_actions_child_rows. Qed.

Section Callbacks.
Context `{!Unicode}.
Variable E : Env.
Variable platform : nat → option Message.

(** X20. Once the query has been answered the callback handler never
    raises: whatever the data source and the platform do afterwards, every
    failure inside is caught and the handler returns normally.  When the
    answer itself fails, the handler stops there and has changed nothing;
    without a callback query it does nothing at all. *)
Theorem callback_handler_catches_failures :
  ∀ (query : CallbackQuery) (c : Chat),
    match platform (length (sent c)) with
    | Some _ => fst (handle_callback_query E platform (Some query) c) = Ok tt
    | None => handle_callback_query E platform (Some query) c
              = (Raised, add_direct Answer c)
    end
    ∧ handle_callback_query E platform None c = (Ok tt, c).
Proof.
  intros query c. split; [|reflexivity].
  unfold handle_callback_query, hbind, direct_call.
  destruct (platform (length (sent c))) as [answer|]; [|reflexivity].
  unfold try_except.
  match goal with |- fst (match ?body with _ => _ end) = _ =>
    destruct body as [[[]|] c1] end.
  - reflexivity.
  - rewrite lift_run. reflexivity.
Qed.

Lemma get_menu_data_forced_run (w : World) :
  get_menu_data E true w
  = match sheet E (fetches w) with
    | Some raw_data =>
      (Ok (GoogleSheetsManager.build_menu_items raw_data),
       {| cache := DataCache.update (cache w)
                     (GoogleSheetsManager.build_menu_items raw_data)
                     (clock E (clock_reads w));
          user_data := user_data w; clock_reads := S (clock_reads w);
          fetches := S (fetches w); outbox := outbox w |})
    | None =>
      (Raised,
       {| cache := cache w; user_data := user_data w; clock_reads := clock_reads w;
          fetches := S (fetches w); outbox := outbox w |})
    end.
Proof.
  unfold get_menu_data, bind, ret, fetch_data, cache_update, time_time. simpl.
  by destruct (sheet E (fetches w)).
Qed.

Lemma handle_refresh_run (query : CallbackQuery) (c : Chat) :
  _handle_refresh E platform query c
  = let c1 := add_direct (EditMessageText (py "🔄 Обновляем данные...")) c in
    match platform (length (sent c)) with
    | None => (Raised, c1)
    | Some _ =>
      match get_menu_data E true
              (set_cache (DataCache.clear (cache (world c))) (world c)) with
      | (Raised, w2) => (Raised, {| world := w2; sent := sent c1 |})
      | (Ok _, w2) =>
        lift (_show_main_menu E (query_message query))
          {| world := set_user_data
                        (NavigationManager.clear_nav_stack (user_data w2)) w2;
             sent := sent c1 |}
      end
    end.
Proof.
  unfold _handle_refresh, hbind, direct_call, add_direct. cbn zeta.
  destruct (platform (length (sent c))) as [answer|]; [|reflexivity].
  rewrite !lift_run. cbn [fst snd world sent cache_clear].
  destruct (get_menu_data E true _) as [[menu_data|] w2];
    cbn [fst snd nav_clear world sent]; rewrite ?lift_run; reflexivity.
Qed.

Lemma reserved_actions_distinct :
  Some (py "refresh") ≠ Some (py "back")
  ∧ Some (py "main_menu") ≠ Some (py "back")
  ∧ Some (py "main_menu") ≠ Some (py "refresh").
Proof. split_and!; by_computation. Qed.

Lemma callback_refresh_run (query : CallbackQuery) (c : Chat) :
  query_data query = Some (py "refresh") →
  handle_callback_query E platform (Some query) c
  = match platform (length (sent c)) with
    | None => (Raised, add_direct Answer c)
    | Some _ =>
      match _handle_refresh E platform query (add_direct Answer c) with
      | (Ok a, c') => (Ok a, c')
      | (Raised, c') =>
        lift (_show_error (query_message query) (py "Произошла ошибка")) c'
      end
    end.
Proof.
  intros Hdata. destruct reserved_actions_distinct as (Hrb & _ & _).
  unfold handle_callback_query, hbind, direct_call, try_except. rewrite Hdata.
  rewrite (decide_False (P := Some (py "refresh") = Some (py "back"))) by exact Hrb.
  rewrite (decide_True (P := Some (py "refresh") = Some (py "refresh"))) by reflexivity.
  destruct (platform (length (sent c))); reflexivity.
Qed.

(** X21. A refresh whose fetch fails leaves the session where it was but
    the cache empty: the navigation stack is not cleared, the cache has lost
    its snapshot and its fetch time, and the handler, after its direct
    "loading" edit, asks [_safe_edit_message] for the generic error screen on
    the message of the query as it was when the button was pressed.  That
    request redraws the message when the transport delivers, unless the
    message already carried exactly that screen: then it is skipped without
    a call, and the chat is left on the loading notice. *)
Theorem failed_refresh_keeps_stack_and_empties_cache :
  ∀ (query : CallbackQuery) (c : Chat) (answer edited : Message),
    query_data query = Some (py "refresh") →
    platform (length (sent c)) = Some answer →
    platform (S (length (sent c))) = Some edited →
    sheet E (fetches (world c)) = None →
    let c' := snd (handle_callback_query E platform (Some query) c) in
    let screen := error_screen (query_message query) (py "Произошла ошибка") in
    fst (handle_callback_query E platform (Some query) c) = Ok tt
    ∧ chat_stack c' = chat_stack c
    ∧ cache (world c') = DataCache.clear (cache (world c))
    ∧ DataCache.data (cache (world c')) = []
    ∧ outbox (world c') = outbox (world c) ++ [screen]
    ∧ sent c' = sent c ++ [Answer; EditMessageText (py "🔄 Обновляем данные...")]
    ∧ edit_is_skipped_or_made screen.
Proof.
  intros query c answer edited Hdata Hanswer Hedited Hsheet c' screen.
  unfold c', screen.
  rewrite callback_refresh_run by exact Hdata. rewrite Hanswer.
  rewrite handle_refresh_run. cbn zeta.
  unfold add_direct. cbn [sent world].
  rewrite length_app. cbn [length]. rewrite Nat.add_1_r, Hedited.
  rewrite get_menu_data_forced_run.
  cbn [fetches set_cache cache]. rewrite Hsheet.
  rewrite lift_run, show_error_run. unfold chat_stack.
  cbn [fst snd world sent add_edit cache user_data outbox].
  split_and!; try reflexivity; [by rewrite <- app_assoc|].
  apply safe_edit_skipped_or_made.
Qed.

(** X22. A refresh that succeeds resets the session: when the spreadsheet
    answers and the clock has not run past the TTL by the time the root menu
    is drawn, the stack is empty, the cache holds the snapshot built from
    the answer with its fetch time, exactly one request was made to the
    spreadsheet, and the handler, after its direct "loading" edit, asks
    [_safe_edit_message] for exactly one screen on the message of the query
    as it was when the button was pressed: the root menu of that snapshot
    (its title, one action per root item, "refresh"), or the "not
    configured" error when the snapshot has no root item.  That request
    redraws the message when the transport delivers, unless the message
    already carried exactly that screen: then it is skipped without a call,
    and the chat is left on the loading notice. *)
Theorem refresh_resets_session :
  ∀ (query : CallbackQuery) (c : Chat) (answer edited : Message)
    (raw_data : list (list (list N))),
    query_data query = Some (py "refresh") →
    platform (length (sent c)) = Some answer →
    platform (S (length (sent c))) = Some edited →
    sheet E (fetches (world c)) = Some raw_data →
    (clock E (S (clock_reads (world c))) - clock E (clock_reads (world c))
     < Qc_of_Z (DataCache.cache_duration (cache (world c))))%Qc →
    let c' := snd (handle_callback_query E platform (Some query) c) in
    let snapshot := GoogleSheetsManager.build_menu_items raw_data in
    fst (handle_callback_query E platform (Some query) c) = Ok tt
    ∧ chat_stack c' = []
    ∧ DataCache.data (cache (world c')) = snapshot
    ∧ DataCache.last_update (cache (world c'))
      = Some (clock E (clock_reads (world c)))
    ∧ fetches (world c') = S (fetches (world c))
    ∧ sent c' = sent c ++ [Answer; EditMessageText (py "🔄 Обновляем данные...")]
    ∧ ∃ req, outbox (world c') = outbox (world c) ++ [req]
             ∧ req = root_menu_screen (query_message query) snapshot
             ∧ edit_message req = query_message query
             ∧ (roots snapshot ≠ [] →
                edit_text req = ROOT_MENU_TEXT
                ∧ edit_parse_mode req = HTML
                ∧ keyboard_actions (edit_reply_markup req)
                  = (MenuItem.callback_data <$> roots snapshot) ++ [py "refresh"])
             ∧ (roots snapshot = [] →
                req = error_screen (query_message query)
                        (py "Главное меню не настроено"))
             ∧ edit_is_skipped_or_made req.
Proof.
  intros query c answer edited raw_data Hdata Hanswer Hedited Hsheet Hclock c' snapshot.
  unfold c'. rewrite callback_refresh_run by exact Hdata. rewrite Hanswer.
  rewrite handle_refresh_run. cbn zeta.
  unfold add_direct. cbn [sent world].
  rewrite length_app. cbn [length]. rewrite Nat.add_1_r, Hedited.
  rewrite get_menu_data_forced_run.
  cbn [fetches set_cache cache]. rewrite Hsheet. fold snapshot.
  rewrite lift_run, show_main_menu_run, get_menu_data_fresh.
  2:{ exists (clock E (clock_reads (world c))). split; [reflexivity | exact Hclock]. }
  unfold chat_stack, root_menu_screen.
  cbn [cache DataCache.data DataCache.update DataCache.clear set_user_data set_cache
       user_data clock_reads fetches outbox DataCache.cache_duration
       DataCache.last_update world sent].
  pose proof (root_keyboard_actions (roots snapshot)) as Hactions.
  destruct (roots snapshot) as [|r rs] eqn:Hroots;
    cbn [fst snd world sent add_edit cache user_data outbox fetches
         DataCache.data DataCache.last_update DataCache.update];
    (split_and!; [reflexivity | apply NavigationFacts.get_nav_stack_insert
                 | reflexivity | reflexivity | reflexivity
                 | by rewrite <- app_assoc |]);
    eexists; (split_and!; [reflexivity | reflexivity | reflexivity | | |
                            apply safe_edit_skipped_or_made]).
  - intros Hne. by destruct Hne.
  - reflexivity.
  - intros _. split_and!; [reflexivity | reflexivity | exact Hactions].
  - intros [=].
Qed.

(** X23. Going to the main menu always empties the stack: after the
    "main_menu" action (once the query is answered) and after [/menu], the
    navigation stack is empty whether or not the root menu could then be
    drawn. *)
Theorem main_menu_always_clears_stack :
  ∀ (query : CallbackQuery) (message : IncomingMessage) (c : Chat),
    (query_data query = Some (py "main_menu") →
     is_Some (platform (length (sent c))) →
     fst (handle_callback_query E platform (Some query) c) = Ok tt
     ∧ chat_stack (snd (handle_callback_query E platform (Some query) c)) = [])
    ∧ chat_stack (snd (menu_command E platform (Some message) c)) = [].
Proof.
  intros query message c. split.
  - intros Hdata [answer Hanswer].
    destruct reserved_actions_distinct as (_ & Hmb & Hmr).
    unfold handle_callback_query, hbind, direct_call, try_except.
    rewrite Hdata, Hanswer.
    rewrite (decide_False (P := Some (py "main_menu") = Some (py "back"))) by exact Hmb.
    rewrite (decide_False (P := Some (py "main_menu") = Some (py "refresh")))
      by exact Hmr.
    rewrite (decide_True (P := Some (py "main_menu") = Some (py "main_menu")))
      by reflexivity.
    rewrite !lift_run. cbn [fst snd nav_clear world sent].
    set (w1 := set_user_data _ (world c)).
    pose proof (keeps_show_main_menu E (query_message query) w1) as Hkeeps.
    destruct (_show_main_menu E (query_message query) w1) as [[[]|] w2];
      cbn [fst snd] in *.
    + split; [reflexivity|]. unfold chat_stack. cbn [world].
      rewrite Hkeeps. apply NavigationFacts.get_nav_stack_insert.
    + rewrite lift_run, show_error_run. split; [reflexivity|].
      unfold chat_stack. cbn [fst snd world add_edit user_data].
      rewrite Hkeeps. apply NavigationFacts.get_nav_stack_insert.
  - unfold menu_command, hbind, direct_call. rewrite lift_run.
    cbn [fst snd nav_clear world sent].
    set (w1 := set_user_data _ (world c)).
    destruct (platform (length (sent c))) as [sent_message|].
    + rewrite lift_run. unfold chat_stack. cbn [snd world].
      rewrite (keeps_show_main_menu E sent_message w1).
      apply NavigationFacts.get_nav_stack_insert.
    + unfold chat_stack. cbn [snd world]. apply NavigationFacts.get_nav_stack_insert.
Qed.
End Callbacks.

(** ** Free text: routing, search and contacts *)

Definition SEARCH_PROMPT : list N := py "🔍 Введите минимум 2 символа для поиска".

Lemma search_keyboard_fmap (results : list MenuItem.t) :
  search_keyboard results
  = (λ item, [Button (py "📄 " ++ MenuItem.text item) (MenuItem.callback_data item)])
      <$> take Config.MAX_SEARCH_RESULTS results.
Proof. unfold search_keyboard. by rewrite foldl_snoc_map. Qed.

Section FreeText.
Context `{!Unicode}.
Variable E : Env.
Variable platform : nat → option Message.

Lemma get_menu_data_keeps_outbox (force_refresh : bool) (w : World) :
  outbox (snd (get_menu_data E force_refresh w)) = outbox w.
Proof.
  unfold get_menu_data, bind, cache_is_valid, ret, fetch_data, cache_update,
    time_time, bind, ret.
  destruct force_refresh; simpl.
  - destruct (sheet E (fetches w)); reflexivity.
  - destruct (DataCache.last_update (cache w)); simpl.
    + destruct (DataCache.is_valid _ _); simpl; [reflexivity|].
      destruct (sheet E (fetches w)); reflexivity.
    + destruct (sheet E (fetches w)); reflexivity.
Qed.

Lemma show_item_content_one_edit (message : Message) (item : MenuItem.t)
    (menu_data : list MenuItem.t) (w : World) :
  ∃ req, _show_item_content message item menu_data w = (Ok tt, add_edit req w)
         ∧ edit_message req = message.
Proof.
  unfold _show_item_content, _show_menu.
  destruct (MenuItem.content_type item);
    try destruct (filter _ menu_data);
    eexists; split; reflexivity.
Qed.

Lemma handle_search_short (message : IncomingMessage) (search_text : list N) (c : Chat) :
  (length search_text < 2)%nat →
  _handle_search E platform message search_text c
  = (match platform (length (sent c)) with Some _ => Ok tt | None => Raised end,
     add_direct (ReplyText SEARCH_PROMPT) c).
Proof.
  intros Hshort. unfold _handle_search.
  rewrite (bool_decide_eq_true_2 _ Hshort), orb_true_r.
  unfold hbind, direct_call, hret, add_direct, SEARCH_PROMPT.
  destruct (platform (length (sent c))); reflexivity.
Qed.

(** X24. A text too short to search never reaches the data: an update
    without a message, without text or with empty text is ignored, and a
    text that trims to fewer than two characters is answered with the
    "at least 2 characters" prompt; in each case the bot's state (cache,
    clock, stack, rendered screens) is untouched. *)
Theorem short_text_prompts_without_lookup :
  ∀ (message : IncomingMessage) (c : Chat),
    handle_text_message E platform None c = (Ok tt, c)
    ∧ match incoming_text message with
      | None => handle_text_message E platform (Some message) c = (Ok tt, c)
      | Some [] => handle_text_message E platform (Some message) c = (Ok tt, c)
      | Some raw_text =>
        (length (strip raw_text) < 2)%nat →
        handle_text_message E platform (Some message) c
        = (match platform (length (sent c)) with Some _ => Ok tt | None => Raised end,
           add_direct (ReplyText SEARCH_PROMPT) c)
        ∧ world (snd (handle_text_message E platform (Some message) c)) = world c
      end.
Proof.
  intros message c. split; [reflexivity|].
  unfold handle_text_message.
  destruct (incoming_text message) as [[|ch raw]|] eqn:Htext; try reflexivity.
  intros Hshort. cbn [truthy negb].
  assert (Hmenu : strip (ch :: raw) ≠ MENU_BUTTON_LABEL).
  { intros Heq. rewrite Heq in Hshort. vm_compute in Hshort. lia. }
  assert (Hcontacts : strip (ch :: raw) ≠ CONTACTS_BUTTON_LABEL).
  { intros Heq. rewrite Heq in Hshort. vm_compute in Hshort. lia. }
  assert (Hhelp : strip (ch :: raw) ≠ HELP_BUTTON_LABEL).
  { intros Heq. rewrite Heq in Hshort. vm_compute in Hshort. lia. }
  rewrite !decide_False by assumption.
  rewrite handle_search_short by exact Hshort. split; reflexivity.
Qed.

(** X25. A search of two characters or more with at least one match sends
    one message to the chat of the asker: its body is never longer than
    [MAX_MESSAGE_LENGTH], and its control set has one action per match for
    the first [MAX_SEARCH_RESULTS] matches in snapshot order, each carrying
    the item's id, and no more; without a match the reply quotes the query
    and says that nothing was found. *)
Theorem search_reply_is_capped :
  ∀ (message : IncomingMessage) (search_text : list N) (c : Chat),
    (2 ≤ length search_text)%nat →
    let w1 := snd (get_menu_data E false (world c)) in
    match fst (get_menu_data E false (world c)) with
    | Raised =>
      _handle_search E platform message search_text c
      = (Raised, {| world := w1; sent := sent c |})
    | Ok menu_data =>
      let results := _search_items menu_data search_text in
      match results with
      | [] =>
        snd (_handle_search E platform message search_text c)
        = {| world := w1;
             sent := sent c ++ [ReplyText (py "🔍 По запросу '" ++ search_text
                                             ++ py "' ничего не найдено")] |}
      | _ :: _ =>
        ∃ req,
          _handle_search E platform message search_text c
          = (Ok tt, {| world := w1; sent := sent c ++ [SafeSend req] |})
          ∧ Transport.send_chat_id req = incoming_chat_id message
          ∧ (length (Transport.send_text req) ≤ Config.MAX_MESSAGE_LENGTH)%nat
          ∧ keyboard_actions (Transport.send_reply_markup req)
            = MenuItem.callback_data <$> take Config.MAX_SEARCH_RESULTS results
          ∧ length (keyboard_actions (Transport.send_reply_markup req))
            = (length results `min` Config.MAX_SEARCH_RESULTS)%nat
      end
    end.
Proof.
  intros message search_text c Hlong w1. unfold w1, _handle_search.
  rewrite bool_decide_eq_false_2 by lia.
  destruct search_text as [|ch rest]; [simpl in Hlong; lia|]. cbn [truthy negb orb].
  unfold hbind. rewrite lift_run.
  destruct (get_menu_data E false (world c)) as [[menu_data|] w']; cbn [fst snd];
    [|reflexivity].
  destruct (_search_items menu_data (ch :: rest)) as [|r rs] eqn:Hresults.
  - unfold direct_call, hret. cbn [world sent].
    destruct (platform (length (sent c))); reflexivity.
  - eexists. split; [reflexivity|]. cbn [Transport.send_chat_id Transport.send_text
      Transport.send_reply_markup].
    split_and!.
    + reflexivity.
    + pose proof (truncate_message_length
        (search_response_text (ch :: rest) (r :: rs))
        (Z.of_nat Config.MAX_MESSAGE_LENGTH)) as Hlen.
      unfold Config.MAX_MESSAGE_LENGTH in *. lia.
    + rewrite search_keyboard_fmap. unfold keyboard_actions.
      generalize (take Config.MAX_SEARCH_RESULTS (r :: rs)). intros shown.
      induction shown as [|x shown IH]; [reflexivity|].
      cbn [fmap list_fmap concat app]. cbn [button_callback_data]. f_equal. exact IH.
    + rewrite search_keyboard_fmap. unfold keyboard_actions.
      rewrite length_fmap. 
      assert (Hconcat : ∀ shown : list MenuItem.t,
                length (concat ((λ item, [Button (py "📄 " ++ MenuItem.text item)
                                            (MenuItem.callback_data item)]) <$> shown))
                = length shown).
      { induction shown as [|x shown IH]; [reflexivity|].
        cbn [fmap list_fmap concat app length]. f_equal. exact IH. }
      rewrite Hconcat, length_take. lia.
Qed.

(** X26. The contacts screen is shown without being pushed: whatever
    happens, [_show_contacts] leaves the navigation stack as it was.  When
    the snapshot has an item with id "main_contacts", the "loading" reply is
    sent and, once it is delivered, the first such item is rendered into
    that reply exactly as [_show_item_content] renders it, with one edit;
    when the reply fails nothing is rendered and the failure is raised.
    When the snapshot has no such item, the "unavailable" reply is sent and
    nothing is rendered; when the snapshot cannot be fetched nothing is sent
    or rendered. *)
Theorem contacts_screen_is_not_pushed :
  ∀ (message : IncomingMessage) (c : Chat),
    let c' := snd (_show_contacts E platform message c) in
    let w1 := snd (get_menu_data E false (world c)) in
    chat_stack c' = chat_stack c
    ∧ match fst (get_menu_data E false (world c)) with
      | Raised => sent c' = sent c ∧ outbox (world c') = outbox (world c)
                  ∧ fst (_show_contacts E platform message c) = Raised
      | Ok menu_data =>
        match _find_menu_item menu_data (py "main_contacts") with
        | Some contacts_item =>
          sent c' = sent c ++ [ReplyText (py "📞 Загружаем контакты...")]
          ∧ (∀ sent_message,
               platform (length (sent c)) = Some sent_message →
               _show_contacts E platform message c
               = (fst (_show_item_content sent_message contacts_item menu_data w1),
                  {| world := snd (_show_item_content sent_message contacts_item
                                     menu_data w1);
                     sent := sent c ++ [ReplyText (py "📞 Загружаем контакты...")] |})
               ∧ ∃ req, outbox (world c') = outbox (world c) ++ [req]
                        ∧ edit_message req = sent_message
                        ∧ _show_item_content sent_message contacts_item menu_data w1
                          = (Ok tt, add_edit req w1))
          ∧ (platform (length (sent c)) = None →
             fst (_show_contacts E platform message c) = Raised
             ∧ world c' = w1)
        | None =>
          sent c' = sent c ++ [ReplyText (py "⚠️ Контакты временно недоступны")]
          ∧ outbox (world c') = outbox (world c)
          ∧ world c' = w1
        end
      end.
Proof.
  intros message c c' w1. unfold c', w1, _show_contacts, hbind, chat_stack.
  rewrite lift_run.
  pose proof (keeps_get_menu_data E false (world c)) as Hud.
  pose proof (get_menu_data_keeps_outbox false (world c)) as Hout.
  destruct (get_menu_data E false (world c)) as [[menu_data|] w']; cbn [fst snd] in *.
  - destruct (_find_menu_item menu_data (py "main_contacts")) as [item|].
    + unfold direct_call. cbn [world sent].
      destruct (platform (length (sent c))) as [sent_message|].
      * rewrite lift_run. cbn [fst snd world sent].
        destruct (show_item_content_one_edit sent_message item menu_data w')
          as (req & Hrun & Hmsg).
        rewrite Hrun. cbn [fst snd add_edit user_data outbox].
        split_and!; [by rewrite Hud | reflexivity | | intros [=]].
        intros ? [= <-]. rewrite Hrun. split; [reflexivity|].
        exists req. split_and!; [by rewrite Hout | exact Hmsg | reflexivity].
      * cbn [fst snd world sent]. split_and!; [by rewrite Hud | reflexivity | |].
        -- intros ? [=].
        -- intros _. split; reflexivity.
    + unfold direct_call, hret. cbn [world sent].
      destruct (platform (length (sent c))); cbn [snd world sent];
        (split_and!; [by rewrite Hud | reflexivity | exact Hout | reflexivity]).
  - cbn [world sent]. split_and!; [by rewrite Hud | reflexivity | exact Hout | reflexivity].
Qed.
End FreeText.

(** ** An invariant of the session *)

Definition RESERVED_ACTIONS : list (list N) := [py "back"; py "refresh"; py "main_menu"].

Section Invariant.
Context `{!Unicode}.

(** The snapshot in the cache holds only normal items, and every entry of
    the navigation stack is a non-empty id other than the reserved
    actions. *)
Definition well_kept (w : World) : Prop :=
  Forall item_normal (DataCache.data (cache w))
  ∧ Forall (λ id, id ≠ [] ∧ id ∉ RESERVED_ACTIONS)
           (NavigationManager.get_nav_stack (user_data w)).

Definition preserves {A} (m : M A) : Prop :=
  ∀ w, well_kept w → well_kept (snd (m w)).

Definition hpreserves {A} (h : H A) : Prop :=
  ∀ c, well_kept (world c) → well_kept (world (snd (h c))).

Lemma preserves_bind {A B} (m : M A) (k : A → M B) :
  preserves m → (∀ a, preserves (k a)) → preserves (bind m k).
Proof.
  intros Hm Hk w Hw. unfold bind. specialize (Hm w Hw).
  destruct (m w) as [[a|] w1]; cbn [snd] in *; [by apply Hk | done].
Qed.

Lemma preserves_frame {A} (m : M A) :
  (∀ w, cache (snd (m w)) = cache w ∧ user_data (snd (m w)) = user_data w) →
  preserves m.
Proof. intros Hframe w Hw. unfold well_kept. by destruct (Hframe w) as [-> ->]. Qed.

Lemma hpreserves_bind {A B} (h : H A) (k : A → H B) :
  hpreserves h → (∀ a, hpreserves (k a)) → hpreserves (hbind h k).
Proof.
  intros Hh Hk c Hc. unfold hbind. specialize (Hh c Hc).
  destruct (h c) as [[a|] c1]; cbn [snd] in *; [by apply Hk | done].
Qed.

Lemma hpreserves_try {A} (body handler : H A) :
  hpreserves body → hpreserves handler → hpreserves (try_except body handler).
Proof.
  intros Hbody Hhandler c Hc. unfold try_except. specialize (Hbody c Hc).
  destruct (body c) as [[a|] c1]; cbn [snd] in *; [done | by apply Hhandler].
Qed.

Lemma hpreserves_lift {A} (m : M A) : preserves m → hpreserves (lift m).
Proof. intros Hm c Hc. rewrite lift_run. cbn [snd world]. by apply Hm. Qed.

Lemma hpreserves_direct_call platform call : hpreserves (direct_call platform call).
Proof.
  intros c Hc. unfold direct_call. by destruct (platform (length (sent c))).
Qed.

Lemma hpreserves_hret {A} (a : A) : hpreserves (hret a).
Proof. by intros c Hc. Qed.

Lemma hpreserves_call_safe_send_message req : hpreserves (call_safe_send_message req).
Proof. by intros c Hc. Qed.

Variable E : Env.

Lemma built_snapshot_normal (raw_data : list (list (list N))) :
  Forall item_normal (GoogleSheetsManager.build_menu_items raw_data).
Proof.
  rewrite build_menu_items_omap. apply Forall_forall. intros item Hitem.
  apply list_elem_of_omap in Hitem as (row & _ & Hrow). by apply (from_row_normal row).
Qed.

Lemma preserves_get_menu_data (force_refresh : bool) :
  preserves (get_menu_data E force_refresh).
Proof.
  intros w [Hdata Hstack]. unfold well_kept.
  rewrite (keeps_get_menu_data E force_refresh w). split; [|exact Hstack].
  unfold get_menu_data, bind, cache_is_valid, ret, fetch_data, cache_update,
    time_time, bind, ret.
  destruct force_refresh; simpl.
  - destruct (sheet E (fetches w)); simpl; [apply built_snapshot_normal | exact Hdata].
  - destruct (DataCache.last_update (cache w)); simpl.
    + destruct (DataCache.is_valid _ _); simpl; [exact Hdata|].
      destruct (sheet E (fetches w)); simpl; [apply built_snapshot_normal | exact Hdata].
    + destruct (sheet E (fetches w)); simpl; [apply built_snapshot_normal | exact Hdata].
Qed.

(** What [get_menu_data] returns is what the cache then holds. *)
Lemma get_menu_data_returns_cache (force_refresh : bool) (w : World)
    (menu_data : list MenuItem.t) :
  fst (get_menu_data E force_refresh w) = Ok menu_data →
  menu_data = DataCache.data (cache (snd (get_menu_data E force_refresh w))).
Proof.
  unfold get_menu_data, bind, cache_is_valid, ret, fetch_data, cache_update,
    time_time, bind, ret.
  destruct force_refresh; simpl.
  - destruct (sheet E (fetches w)); simpl; congruence.
  - destruct (DataCache.last_update (cache w)); simpl.
    + destruct (DataCache.is_valid _ _); simpl; [congruence|].
      destruct (sheet E (fetches w)); simpl; congruence.
    + destruct (sheet E (fetches w)); simpl; congruence.
Qed.

Lemma preserves_show_error message error_text :
  preserves (_show_error message error_text).
Proof. apply preserves_frame. by intros w. Qed.

Lemma preserves_show_item_content message item menu_data :
  preserves (_show_item_content message item menu_data).
Proof.
  apply preserves_frame. intros w.
  destruct (show_item_content_one_edit message item menu_data w) as (req & -> & _).
  done.
Qed.

Lemma preserves_show_main_menu message : preserves (_show_main_menu E message).
Proof.
  unfold _show_main_menu. apply preserves_bind; [apply preserves_get_menu_data|].
  intros menu_data. destruct (filter _ menu_data).
  - apply preserves_show_error.
  - apply preserves_frame. by intros w.
Qed.

Lemma preserves_nav_clear : preserves nav_clear.
Proof.
  intros w [Hdata _]. split; [exact Hdata|]. cbn [nav_clear snd set_user_data user_data].
  unfold NavigationManager.clear_nav_stack.
  rewrite NavigationFacts.get_nav_stack_insert. constructor.
Qed.

Lemma preserves_cache_clear : preserves cache_clear.
Proof. intros w [_ Hstack]. split; [constructor | exact Hstack]. Qed.

Lemma Forall_removelast {A} (P : A → Prop) (l : list A) :
  Forall P l → Forall P (removelast l).
Proof.
  intros Hl. destruct l as [|x l _] using rev_ind; [done|].
  rewrite removelast_last. by apply Forall_app in Hl as [? _].
Qed.

Lemma preserves_handle_back_button message :
  preserves (_handle_back_button E message).
Proof.
  intros w Hw. unfold _handle_back_button.
  case_bool_decide as Hdepth; [by apply preserves_show_main_menu|].
  destruct (NavigationManager.pop_from_nav_stack (user_data w))
    as [popped user_data'] eqn:Hpop.
  assert (Hw1 : well_kept (set_user_data user_data' w)).
  { destruct Hw as [Hdata Hstack]. split; [exact Hdata|].
    cbn [set_user_data user_data].
    unfold NavigationManager.pop_from_nav_stack in Hpop.
    destruct (last (NavigationManager.get_nav_stack (user_data w)));
      injection Hpop as _ <-; [|exact Hstack].
    rewrite NavigationFacts.get_nav_stack_insert. by apply Forall_removelast. }
  set (w1 := set_user_data user_data' w) in *.
  destruct (last (NavigationManager.get_nav_stack user_data')) as [previous_id|];
    [|by apply preserves_show_main_menu].
  destruct (truthy previous_id); [|by apply preserves_show_main_menu].
  apply preserves_bind; [apply preserves_get_menu_data | | exact Hw1].
  intros menu_data. destruct (_find_menu_item menu_data previous_id).
  - apply preserves_show_item_content.
  - apply preserves_show_main_menu.
Qed.

Lemma preserves_select_item message (item_id : list N) :
  item_id ∉ RESERVED_ACTIONS → preserves (select_item E message item_id).
Proof.
  intros Hfree w Hw. rewrite select_item_run.
  pose proof (preserves_get_menu_data false w Hw) as Hw1.
  pose proof (get_menu_data_returns_cache false w) as Hreturned.
  destruct (get_menu_data E false w) as [[menu_data|] w1]; cbn [fst snd] in *;
    [|exact Hw1].
  specialize (Hreturned menu_data eq_refl).
  destruct (_find_menu_item menu_data item_id) as [item|] eqn:Hfind.
  - apply find_some in Hfind as [Hin Hid]. apply bool_decide_eq_true in Hid.
    apply preserves_show_item_content.
    destruct Hw1 as [Hdata Hstack]. split; [exact Hdata|].
    cbn [set_user_data user_data]. rewrite NavigationFacts.get_nav_stack_push.
    apply Forall_app. split; [exact Hstack|]. constructor; [|constructor].
    rewrite Hid. split; [|exact Hfree].
    rewrite Hreturned in Hin. apply list_elem_of_In in Hin.
    rewrite Forall_forall in Hdata. destruct (Hdata item Hin) as [Hne _].
    by rewrite <- Hid.
  - by apply (preserves_show_error message (py "Элемент не найден")).
Qed.

Variable platform : nat → option Message.

Lemma hpreserves_handle_refresh query : hpreserves (_handle_refresh E platform query).
Proof.
  unfold _handle_refresh.
  repeat (apply hpreserves_bind; [|intros ?]);
    first [apply hpreserves_direct_call | apply hpreserves_lift].
  - apply preserves_cache_clear.
  - apply preserves_get_menu_data.
  - apply preserves_nav_clear.
  - apply preserves_show_main_menu.
Qed.

Lemma hpreserves_handle_search message search_text :
  hpreserves (_handle_search E platform message search_text).
Proof.
  unfold _handle_search. destruct (negb _ || _).
  - apply hpreserves_bind; [apply hpreserves_direct_call | intros ?; apply hpreserves_hret].
  - apply hpreserves_bind; [apply hpreserves_lift, preserves_get_menu_data|].
    intros menu_data. destruct (_search_items menu_data search_text).
    + apply hpreserves_bind; [apply hpreserves_direct_call | intros ?; apply hpreserves_hret].
    + apply hpreserves_call_safe_send_message.
Qed.

Lemma hpreserves_show_contacts message : hpreserves (_show_contacts E platform message).
Proof.
  unfold _show_contacts.
  apply hpreserves_bind; [apply hpreserves_lift, preserves_get_menu_data|].
  intros menu_data. destruct (_find_menu_item menu_data (py "main_contacts")).
  - apply hpreserves_bind; [apply hpreserves_direct_call|].
    intros sent_message. apply hpreserves_lift, preserves_show_item_content.
  - apply hpreserves_bind; [apply hpreserves_direct_call | intros ?; apply hpreserves_hret].
Qed.

Lemma hpreserves_menu_command message : hpreserves (menu_command E platform message).
Proof.
  unfold menu_command. destruct message; [|apply hpreserves_hret].
  apply hpreserves_bind; [apply hpreserves_lift, preserves_nav_clear|]. intros _.
  apply hpreserves_bind; [apply hpreserves_direct_call|]. intros sent_message.
  apply hpreserves_lift, preserves_show_main_menu.
Qed.

(** X27. The session keeps itself consistent.  A fresh session is well
    kept, and every callback and every text message leaves a well-kept
    session well kept: the cached snapshot holds only items with a
    non-empty id, a non-empty text and trimmed fields, and every entry of
    the navigation stack is a non-empty id that is none of "back",
    "refresh", "main_menu" (an item with such an id can never be opened). *)
Theorem handlers_keep_session_well_kept :
  ∀ (callback_query : option CallbackQuery) (message : option IncomingMessage)
    (c : Chat),
    well_kept empty_world
    ∧ (well_kept (world c) →
       well_kept (world (snd (handle_callback_query E platform callback_query c)))
       ∧ well_kept (world (snd (handle_text_message E platform message c)))).
Proof.
  intros callback_query message c. split.
  { split; [constructor|]. unfold NavigationManager.get_nav_stack, empty_world.
    cbn [user_data]. rewrite lookup_empty. constructor. }
  intros Hc. split.
  - revert c Hc. change (hpreserves (handle_callback_query E platform callback_query)).
    unfold handle_callback_query. destruct callback_query as [query|];
      [|apply hpreserves_hret].
    apply hpreserves_bind; [apply hpreserves_direct_call|]. intros _.
    apply hpreserves_try; [|apply hpreserves_lift, preserves_show_error].
    destruct (decide (query_data query = Some (py "back"))) as [|Hback];
      [apply hpreserves_lift, preserves_handle_back_button|].
    destruct (decide (query_data query = Some (py "refresh"))) as [|Hrefresh];
      [apply hpreserves_handle_refresh|].
    destruct (decide (query_data query = Some (py "main_menu"))) as [|Hmain].
    { apply hpreserves_bind; [apply hpreserves_lift, preserves_nav_clear|].
      intros _. apply hpreserves_lift, preserves_show_main_menu. }
    destruct (query_data query) as [item_id|].
    + apply hpreserves_lift, preserves_select_item.
      unfold RESERVED_ACTIONS. rewrite !elem_of_cons, elem_of_nil.
      intros [->|[->|[->|[]]]]; congruence.
    + apply hpreserves_bind; [apply hpreserves_lift, preserves_get_menu_data|].
      intros _. apply hpreserves_lift, preserves_show_error.
  - revert c Hc. change (hpreserves (handle_text_message E platform message)).
    unfold handle_text_message. destruct message as [m|]; [|apply hpreserves_hret].
    destruct (incoming_text m) as [raw_text|]; [|apply hpreserves_hret].
    destruct (negb (truthy raw_text)); [apply hpreserves_hret|].
    repeat case_decide.
    + apply hpreserves_menu_command.
    + apply hpreserves_show_contacts.
    + unfold help_command. apply hpreserves_call_safe_send_message.
    + apply hpreserves_handle_search.
Qed.
End Invariant.

(** ** What a returned transport call has done *)

Module TransportInvariants.
Import Transport.
Local Open Scope nat_scope.

Lemma sleeps_app_events (evs1 evs2 : list Event) :
  sleeps (evs1 ++ evs2) = sleeps evs1 ++ sleeps evs2.
Proof. apply omap_app. Qed.

Section Returned.
Context `{!Unicode}.
Variable T : nat → Response.

Lemma send_returned (fuel : nat) (req : SendRequest) (st st' : State)
    (r : option Message) :
  _safe_send_message T fuel req st = Some (r, st') →
  ∃ evs, trace st' = trace st ++ evs
         ∧ calls st' = calls st + S (length (sleeps evs))
         ∧ (r = None → last evs = Some LogError)
         ∧ (is_Some r → last evs = Some (ApiSend req)).
Proof.
  revert st. induction fuel as [|fuel IH]; intros st Hrun; [discriminate|].
  cbn [_safe_send_message] in Hrun.
  destruct (T (calls st)) as [sent_message | retry_after | description | |].
  - injection Hrun as <- <-. exists [ApiSend req]. cbn.
    split_and!; [reflexivity | lia | intros [=] | reflexivity].
  - apply IH in Hrun as (evs & Htrace & Hcalls & Hnone & Hsome).
    exists ([ApiSend req; LogWarning; Sleep retry_after] ++ evs).
    cbn [record api_call trace calls] in Htrace, Hcalls.
    split_and!.
    + rewrite Htrace. by rewrite <- !app_assoc.
    + rewrite Hcalls, sleeps_app_events. cbn. lia.
    + intros Hr. rewrite last_app. by rewrite (Hnone Hr).
    + intros Hr. rewrite last_app. by rewrite (Hsome Hr).
  - injection Hrun as <- <-. exists [ApiSend req; LogError]. cbn.
    split_and!; [by rewrite <- app_assoc | lia | reflexivity | intros [? [=]]].
  - injection Hrun as <- <-. exists [ApiSend req; LogError]. cbn.
    split_and!; [by rewrite <- app_assoc | lia | reflexivity | intros [? [=]]].
  - injection Hrun as <- <-. exists [ApiSend req; LogError]. cbn.
    split_and!; [by rewrite <- app_assoc | lia | reflexivity | intros [? [=]]].
Qed.

Lemma edit_returned (fuel : nat) (req : EditRequest) (st st' : State) (r : bool) :
  ¬ unchanged req →
  _safe_edit_message T fuel req st = Some (r, st') →
  ∃ evs, trace st' = trace st ++ evs
         ∧ calls st' = calls st + S (length (sleeps evs))
         ∧ (r = true → last evs = Some (ApiEdit req)).
Proof.
  intros Hchanged. revert st. induction fuel as [|fuel IH]; intros st Hrun;
    [discriminate|].
  cbn [_safe_edit_message] in Hrun.
  rewrite bool_decide_eq_false_2 in Hrun by exact Hchanged.
  destruct (T (calls st)) as [sent_message | retry_after | description | |].
  - injection Hrun as <- <-. exists [ApiEdit req]. cbn.
    split_and!; [reflexivity | lia | reflexivity].
  - apply IH in Hrun as (evs & Htrace & Hcalls & Htrue).
    exists ([ApiEdit req; LogWarning; Sleep retry_after] ++ evs).
    cbn [record api_call trace calls] in Htrace, Hcalls.
    split_and!.
    + rewrite Htrace. by rewrite <- !app_assoc.
    + rewrite Hcalls, sleeps_app_events. cbn. lia.
    + intros Hr. rewrite last_app. by rewrite (Htrue Hr).
  - destruct (contains _ _); injection Hrun as <- <-.
    + exists [ApiEdit req]. cbn. split_and!; [reflexivity | lia | reflexivity].
    + exists [ApiEdit req; LogWarning]. cbn.
      split_and!; [by rewrite <- app_assoc | lia | intros [=]].
  - injection Hrun as <- <-. exists [ApiEdit req; LogError]. cbn.
    split_and!; [by rewrite <- app_assoc | lia | intros [=]].
  - injection Hrun as <- <-. exists [ApiEdit req; LogError]. cbn.
    split_and!; [by rewrite <- app_assoc | lia | intros [=]].
Qed.

(** X28. A send or an edit that returns has made exactly one more API call
    than it has waited, and has only added to the log; a send returns no
    message only after logging an error.  An edit whose text and markup are
    those the message already has makes no call at all, waits for nothing
    and returns [True], whatever the transport would answer. *)
Theorem returned_call_made_one_more_call_than_waits :
  ∀ (fuel : nat) (sreq : SendRequest) (ereq : EditRequest) (st st' : State)
    (sent_message : option Message) (ok : bool),
    (_safe_send_message T fuel sreq st = Some (sent_message, st') →
     ∃ evs, trace st' = trace st ++ evs
            ∧ calls st' = calls st + S (length (sleeps evs))
            ∧ (sent_message = None → last evs = Some LogError))
    ∧ (¬ unchanged ereq →
       _safe_edit_message T fuel ereq st = Some (ok, st') →
       ∃ evs, trace st' = trace st ++ evs
              ∧ calls st' = calls st + S (length (sleeps evs)))
    ∧ (unchanged ereq → _safe_edit_message T (S fuel) ereq st = Some (true, st)).
Proof.
  intros fuel sreq ereq st st' sent_message ok. split_and!.
  - intros Hrun. apply send_returned in Hrun as (evs & ? & ? & ? & _). eauto.
  - intros Hchanged Hrun.
    apply edit_returned in Hrun as (evs & ? & ? & _); [eauto | exact Hchanged].
  - intros Hunchanged. cbn [_safe_edit_message].
    by rewrite bool_decide_eq_true_2 by exact Hunchanged.
Qed.
End Returned.
End TransportInvariants.

(** ** Concrete runs of the further properties *)

(** A spreadsheet that cannot be reached. *)
Definition failing_env : Env :=
  {| clock := λ n, Qc_of_Z (Z.of_nat n); sheet := λ _, None |}.

(** A platform on which every direct call succeeds. *)
Definition always_delivers : nat → option Message := λ _, Some blank_message.

Definition fresh_chat : Chat := {| world := empty_world; sent := [] |}.

(** The chat of a session that has [root1] open. *)
Definition depth_one_chat : Chat := {| world := depth_one_world; sent := [] |}.

Definition refresh_query : CallbackQuery :=
  {| query_data := Some (py "refresh"); query_message := blank_message |}.

Definition main_menu_query : CallbackQuery :=
  {| query_data := Some (py "main_menu"); query_message := blank_message |}.

Definition open_root1_query : CallbackQuery :=
  {| query_data := Some (py "root1"); query_message := blank_message |}.

(** A cache with a TTL of zero, filled at time 0. *)
Definition uncached_world : World :=
  {| cache := DataCache.update (DataCache.init 0) [] 0%Qc;
     user_data := ∅; clock_reads := 1; fetches := 1; outbox := [] |}.

Definition ward : MenuItem.t :=
  MenuItem.mk (py "ward") (py "root1") (py "Отделение") [] SUBMENU [].

Definition nurse : MenuItem.t :=
  MenuItem.mk (py "nurse") (py "ward") (py "Пост") (py "каб. 12") TEXT [].

(** A second item that carries the id of [c1]. *)
Definition c1_twin : MenuItem.t :=
  MenuItem.mk (py "c1") [] (py "Дубль") [] TEXT [].

Lemma second_call_is_served_from_cache_witness :
  fetches (snd (@get_menu_data latin_cyrillic scenario_env false
                  (snd (@get_menu_data latin_cyrillic scenario_env false empty_world))))
  = 1%nat.
Proof.
  destruct (@second_call_is_served_from_cache latin_cyrillic scenario_env empty_world
              (scenario_sheet [py "id"; py "parent"; py "text"]))
    as (_ & _ & Hfetches & _).
  - intros (fetched_at & Hlast & _). discriminate Hlast.
  - reflexivity.
  - by_computation.
  - exact Hfetches.
Defined.

Lemma non_positive_ttl_always_fetches_witness :
  fetches (snd (@get_menu_data latin_cyrillic scenario_env false uncached_world))
  = 2%nat.
Proof.
  destruct (@non_positive_ttl_always_fetches latin_cyrillic scenario_env
              uncached_world 0%Qc) as [_ Hfetches].
  - simpl. lia.
  - reflexivity.
  - by_computation.
  - exact Hfetches.
Defined.

Lemma find_menu_item_first_match_witness :
  _find_menu_item [root1; c1; c1_twin] (py "c1") = Some c1.
Proof.
  destruct (find_menu_item_first_match [root1; c1; c1_twin] (py "c1"))
    as (_ & _ & Hfirst).
  apply (Hfirst [root1] c1 [c1_twin]).
  - reflexivity.
  - reflexivity.
  - intros other Hother. apply list_elem_of_singleton in Hother as ->. by_computation.
Defined.

Lemma item_screen_always_offers_main_menu_witness :
  ∃ req, @_show_item_content latin_cyrillic blank_message c1 scenario_snapshot empty_world
         = (Ok tt, add_edit req empty_world)
         ∧ edit_reply_markup req = Some LEAF_KEYBOARD.
Proof.
  destruct (@item_screen_always_offers_main_menu latin_cyrillic
              blank_message c1 scenario_snapshot empty_world)
    as (req & Hrun & _ & _ & Hleaf).
  exists req. split; [exact Hrun|]. apply Hleaf; discriminate.
Defined.

Lemma submenu_controls_children_back_main_menu_refresh_witness :
  keyboard_actions
    (Some [[Button (py "Пост") (py "nurse")];
           [BACK_BUTTON; MAIN_MENU_BUTTON; REFRESH_BUTTON]])
  = [py "nurse"; py "back"; py "main_menu"; py "refresh"].
Proof.
  destruct (@submenu_controls_children_back_main_menu_refresh latin_cyrillic
              blank_message ward [root1; ward; nurse] empty_world) as [_ Hactions].
  - reflexivity.
  - by_computation.
  - exact Hactions.
Defined.

Lemma childless_menu_falls_back_to_text_witness :
  @_show_item_content latin_cyrillic blank_message root1 [root1] empty_world
  = call_safe_edit_message blank_message (py "Клиника") (Some LEAF_KEYBOARD) None
      empty_world.
Proof.
  rewrite (@childless_menu_falls_back_to_text latin_cyrillic
             blank_message root1 [root1] empty_world).
  - reflexivity.
  - discriminate.
  - discriminate.
  - intros _. reflexivity.
Defined.

(** The refresh button of the generic error screen itself. *)
Definition refresh_on_error_query : CallbackQuery :=
  {| query_data := Some (py "refresh");
     query_message :=
       {| message_text := Some (py "⚠️ " ++ py "Произошла ошибка");
          message_reply_markup := Some [[MAIN_MENU_BUTTON]; [REFRESH_BUTTON]] |} |}.

Lemma failed_refresh_keeps_stack_and_empties_cache_witness :
  (chat_stack (snd (@handle_callback_query latin_cyrillic failing_env always_delivers
                      (Some refresh_query) depth_one_chat))
   = [py "root1"]
   ∧ DataCache.data
       (cache (world (snd (@handle_callback_query latin_cyrillic failing_env
                             always_delivers (Some refresh_query) depth_one_chat))))
     = []
   ∧ @Transport._safe_edit_message latin_cyrillic
       (λ _, Transport.Delivered blank_message) 1
       (error_screen blank_message (py "Произошла ошибка")) idle
     = Some (true,
             Transport.api_call
               (Transport.ApiEdit (error_screen blank_message (py "Произошла ошибка")))
               idle))
  ∧ @Transport._safe_edit_message latin_cyrillic
      (λ _, Transport.Delivered blank_message) 1
      (error_screen (query_message refresh_on_error_query) (py "Произошла ошибка")) idle
    = Some (true, idle).
Proof.
  split.
  - destruct (@failed_refresh_keeps_stack_and_empties_cache latin_cyrillic failing_env
                always_delivers refresh_query depth_one_chat blank_message blank_message)
      as (_ & Hstack & _ & Hdata & _ & _ & _ & Hmade).
    1-4: reflexivity.
    split_and!; [rewrite Hstack; vm_compute; reflexivity | exact Hdata |].
    refine (Hmade _ _ idle blank_message _);
      [intros [Htext _]; discriminate Htext | reflexivity].
  - destruct (@failed_refresh_keeps_stack_and_empties_cache latin_cyrillic failing_env
                always_delivers refresh_on_error_query depth_one_chat
                blank_message blank_message)
      as (_ & _ & _ & _ & _ & _ & Hskipped & _).
    1-4: reflexivity.
    apply Hskipped. split; reflexivity.
Defined.

Lemma refresh_resets_session_witness :
  chat_stack (snd (@handle_callback_query latin_cyrillic scenario_env always_delivers
                     (Some refresh_query) depth_one_chat))
  = []
  ∧ DataCache.data
      (cache (world (snd (@handle_callback_query latin_cyrillic scenario_env
                            always_delivers (Some refresh_query) depth_one_chat))))
    = scenario_snapshot
  ∧ outbox (world (snd (@handle_callback_query latin_cyrillic scenario_env
                          always_delivers (Some refresh_query) depth_one_chat)))
    = [Edit blank_message
         (py "📋 <b>Главное меню</b>" ++ NL ++ NL ++ py "Выберите нужный раздел:")
         (Some [[Button (py "Клиника") (py "root1")]; [REFRESH_DATA_BUTTON]])
         HTML].
Proof.
  destruct (@refresh_resets_session latin_cyrillic scenario_env always_delivers
              refresh_query depth_one_chat blank_message blank_message
              (scenario_sheet [py "id"; py "parent"; py "text"]))
    as (_ & Hstack & Hdata & _ & _ & _ & req & Houtbox & Hreq & _); try reflexivity.
  split_and!; [exact Hstack | rewrite Hdata; vm_compute; reflexivity |].
  rewrite Houtbox, Hreq. vm_compute. reflexivity.
Defined.

Lemma main_menu_always_clears_stack_witness :
  chat_stack (snd (@handle_callback_query latin_cyrillic failing_env always_delivers
                     (Some main_menu_query) depth_one_chat))
  = [].
Proof.
  destruct (@main_menu_always_clears_stack latin_cyrillic failing_env always_delivers
              main_menu_query {| incoming_chat_id := 42; incoming_text := None |}
              depth_one_chat) as [Haction _].
  destruct Haction as [_ Hstack].
  - reflexivity.
  - by exists blank_message.
  - exact Hstack.
Defined.

(** A message whose text is a space, the letter a and a space. *)
Definition one_letter_message : IncomingMessage :=
  {| incoming_chat_id := 42; incoming_text := Some [32; 97; 32] |}.

Lemma short_text_prompts_without_lookup_witness :
  world (snd (@handle_text_message latin_cyrillic scenario_env always_delivers
                (Some one_letter_message) fresh_chat))
  = world fresh_chat.
Proof.
  destruct (@short_text_prompts_without_lookup latin_cyrillic scenario_env
              always_delivers one_letter_message fresh_chat) as [_ Hshort].
  cbn [incoming_text one_letter_message] in Hshort.
  destruct Hshort as [_ Hworld].
  - vm_compute. lia.
  - exact Hworld.
Defined.

Definition question : IncomingMessage :=
  {| incoming_chat_id := 42; incoming_text := Some (py "конт") |}.

Lemma handlers_keep_session_well_kept_witness :
  @well_kept latin_cyrillic
    (world (snd (@handle_callback_query latin_cyrillic scenario_env always_delivers
                   (Some open_root1_query) fresh_chat))).
Proof.
  destruct (@handlers_keep_session_well_kept latin_cyrillic scenario_env
              always_delivers (Some open_root1_query) (Some question) fresh_chat)
    as [Hfresh Hstep].
  apply Hstep. exact Hfresh.
Defined.

(** An edit that would change nothing. *)
Definition same_again : EditRequest :=
  Edit {| message_text := Some (py "Hello"); message_reply_markup := None |}
       (py "Hello") None None.

Lemma returned_call_made_one_more_call_than_waits_witness :
  (∃ evs, [Transport.ApiSend greeting; Transport.LogWarning; Transport.Sleep 5;
           Transport.ApiSend greeting; Transport.LogWarning; Transport.Sleep 7;
           Transport.ApiSend greeting] = [] ++ evs
          ∧ 3%nat = (0 + S (length (Transport.sleeps evs)))%nat)
  ∧ @Transport._safe_edit_message latin_cyrillic throttled_twice 1 same_again idle
    = Some (true, idle).
Proof.
  destruct (@TransportInvariants.returned_call_made_one_more_call_than_waits
              latin_cyrillic throttled_twice 0 greeting same_again idle idle None true)
    as (_ & _ & Hsame).
  destruct (@TransportInvariants.returned_call_made_one_more_call_than_waits
              latin_cyrillic throttled_twice 3 greeting redraw idle
              {| Transport.calls := 3;
                 Transport.trace :=
                   [Transport.ApiSend greeting; Transport.LogWarning; Transport.Sleep 5;
                    Transport.ApiSend greeting; Transport.LogWarning; Transport.Sleep 7;
                    Transport.ApiSend greeting] |}
              (Some blank_message) true)
    as (Hsend & _ & _).
  split.
  - destruct Hsend as (evs & Htrace & Hcalls & _); [reflexivity|].
    exists evs. split; [exact Htrace | exact Hcalls].
  - apply Hsame. split; reflexivity.
Defined.

Lemma search_reply_is_capped_witness :
  ∃ req,
    @_handle_search latin_cyrillic scenario_env always_delivers question (py "конт")
      fresh_chat
    = (Ok tt,
       {| world := snd (@get_menu_data latin_cyrillic scenario_env false empty_world);
          sent := [SafeSend req] |})
    ∧ keyboard_actions (Transport.send_reply_markup req) = [py "c1"].
Proof.
  assert (Hlong : (2 ≤ length (py "конт"))%nat) by (vm_compute; lia).
  pose proof (@search_reply_is_capped latin_cyrillic scenario_env always_delivers
                question (py "конт") fresh_chat Hlong) as Hreply.
  assert (Hget : fst (@get_menu_data latin_cyrillic scenario_env false (world fresh_chat))
                 = Ok scenario_snapshot) by (vm_compute; reflexivity).
  assert (Hfound : @_search_items latin_cyrillic scenario_snapshot (py "конт") = [c1])
    by (vm_compute; reflexivity).
  cbv zeta in Hreply. rewrite Hget, Hfound in Hreply.
  destruct Hreply as (req & Hrun & _ & _ & Hactions & _).
  exists req. split; [exact Hrun|]. rewrite Hactions. reflexivity.
Defined.

Lemma root_menu_lists_roots_and_refresh_witness :
  ∃ req,
    @_show_main_menu latin_cyrillic scenario_env blank_message empty_world
    = (Ok tt,
       add_edit req (snd (@get_menu_data latin_cyrillic scenario_env false empty_world)))
    ∧ keyboard_actions (edit_reply_markup req) = [py "root1"; py "refresh"].
Proof.
  pose proof (@root_menu_lists_roots_and_refresh latin_cyrillic scenario_env
                blank_message empty_world) as Hmenu.
  assert (Hget : fst (@get_menu_data latin_cyrillic scenario_env false empty_world)
                 = Ok scenario_snapshot) by (vm_compute; reflexivity).
  cbv zeta in Hmenu. rewrite Hget in Hmenu.
  destruct Hmenu as (req & Hrun & _ & _ & Hroots & _).
  exists req. split; [exact Hrun|].
  destruct Hroots as [_ Hactions]; [by_computation|].
  rewrite Hactions. vm_compute. reflexivity.
Defined.

(** A spreadsheet whose only entry is the contacts item. *)
Definition contacts_env : Env :=
  {| clock := λ n, Qc_of_Z (Z.of_nat n);
     sheet := λ _, Some [[py "id"; py "parent"; py "text"];
                         [py "main_contacts"; []; py "Контакты";
                          py "+7 999 123 4567"; py "phone"]] |}.

Definition main_contacts : MenuItem.t :=
  MenuItem.mk (py "main_contacts") [] (py "Контакты") (py "+7 999 123 4567") PHONE [].

Lemma contacts_screen_is_not_pushed_witness :
  chat_stack (snd (@_show_contacts latin_cyrillic contacts_env always_delivers
                     question depth_one_chat))
  = [py "root1"]
  ∧ @_show_contacts latin_cyrillic contacts_env always_delivers question depth_one_chat
    = (fst (@_show_item_content latin_cyrillic blank_message main_contacts [main_contacts]
              (snd (@get_menu_data latin_cyrillic contacts_env false
                      (world depth_one_chat)))),
       {| world :=
            snd (@_show_item_content latin_cyrillic blank_message main_contacts
                   [main_contacts]
                   (snd (@get_menu_data latin_cyrillic contacts_env false
                           (world depth_one_chat))));
          sent := sent depth_one_chat ++ [ReplyText (py "📞 Загружаем контакты...")] |}).
Proof.
  destruct (@contacts_screen_is_not_pushed latin_cyrillic contacts_env always_delivers
              question depth_one_chat) as [Hstack Hcases].
  split; [rewrite Hstack; vm_compute; reflexivity|].
  assert (Hget : fst (@get_menu_data latin_cyrillic contacts_env false
                        (world depth_one_chat)) = Ok [main_contacts])
    by (vm_compute; reflexivity).
  assert (Hfind : @_find_menu_item [main_contacts] (py "main_contacts")
                  = Some main_contacts) by (vm_compute; reflexivity).
  rewrite Hget, Hfind in Hcases. destruct Hcases as (_ & Hdelivered & _).
  destruct (Hdelivered blank_message) as [Hrun _]; [reflexivity|]. exact Hrun.
Defined.

(** Decimal rendering and the shape of a long search reply. *)
Example str_of_nat_examples :
  str_of_nat 0 = py "0" ∧ str_of_nat 7 = py "7" ∧ str_of_nat 120 = py "120".
Proof. vm_compute. done. Qed.

Example search_response_text_counts_the_rest :
  search_response_text (py "ab") (replicate 6 video_item)
  = py "🔍 <b>Результаты поиска по запросу:</b> ab" ++ NL ++ NL
    ++ concat ((λ i, str_of_nat i ++ py ". <b>Intro</b>" ++ NL ++ py "   clip" ++ NL ++ NL)
                 <$> [1; 2; 3; 4; 5]%nat)
    ++ py "... и еще 1 результатов".
Proof. vm_compute. reflexivity. Qed.
